(** * Real-time processing-status core of research-automation

  A shallow embedding of the three TypeScript units that make up the
  status synchronisation core of the dashboard frontend:

  - [hooks/useProcessingStore.ts]  (the zustand job state store),
  - [hooks/useWebSocket.ts]        (transport, reconnection, registry),
  - [components/providers/WebSocketProvider.tsx] (classifier/notifier).

  JavaScript objects are finite maps from property names to values, and
  the object spread [{...a, ...b, k: v}] is a right-biased union followed
  by an insertion.  Asynchronous actions are split at their [await]; the
  browser (sockets and timers) is an explicit part of the hook state and
  drives it through events. *)

From Stdlib Require Import ZArith Lia.
From stdpp Require Import base option list gmap strings pretty.

#[local] Set Warnings "-register-all".
#[local] Open Scope string_scope.
#[local] Open Scope list_scope.
#[local] Open Scope nat_scope.

(** ** JavaScript values *)

Module JS.

(** The values that reach the store: what [JSON.parse] produces, plus
    [undefined], which appears as soon as a missing property is read.
    Numbers are the integers the backend sends for counters. *)
Inductive Value : Type :=
  | VUndef
  | VNull
  | VBool (b : bool)
  | VNum (n : Z)
  | VStr (s : string)
  | VArr (l : list Value)
  | VObj (m : gmap string Value).

(** ToBoolean, as used by [if (data)] and by [a || b]. *)
Definition truthy (v : Value) : bool :=
  match v with
  | VUndef | VNull => false
  | VBool b => b
  | VNum n => negb (n =? 0)%Z
  | VStr s => negb (String.eqb s "")
  | VArr _ | VObj _ => true
  end.

Definition nullish (v : Value) : bool :=
  match v with
  | VUndef | VNull => true
  | _ => false
  end.

(** [a || b] *)
Definition or_else (a b : Value) : Value := if truthy a then a else b.

Fixpoint chars (s : string) : list Value :=
  match s with
  | EmptyString => []
  | String c r => VStr (String c EmptyString) :: chars r
  end.

Definition indexed (l : list Value) : gmap string Value :=
  list_to_map (imap (fun (i : nat) (x : Value) => (pretty i, x)) l).

(** The own enumerable properties copied by [...v] in an object literal:
    those of an object, the indices of an array or of a string (one per
    character, for the ASCII strings the backend sends), and nothing for
    the other primitives, [null] and [undefined]. *)
Definition spread (v : Value) : gmap string Value :=
  match v with
  | VObj m => m
  | VArr l => indexed l
  | VStr s => indexed (chars s)
  | _ => ∅
  end.

(** [v.k] for a [v] that is neither [null] nor [undefined], at the
    property names the sources read ([state], [error], [response],
    [data], [detail], [database], ...): a primitive or an array has none
    of them. *)
Definition get (v : Value) (k : string) : Value :=
  match v with
  | VObj m => default VUndef (m !! k)
  | _ => VUndef
  end.

(** [v?.k] *)
Definition opt_get (v : Value) (k : string) : Value :=
  if nullish v then VUndef else get v k.

(** The object a failed property read on [null]/[undefined] throws. *)
Definition TypeError : Value := VObj {[ "name" := VStr "TypeError" ]}.

End JS.

(** ** hooks/useProcessingStore.ts *)

Module ProcessingStore.
Import JS.

(** [WebSocketMessage] of useWebSocket.ts; an absent [data] is
    [VUndef]. *)
Record WebSocketMessage : Type := {
  type : string;
  data : Value
}.

Definition defaultProcessingState : gmap string Value :=
  list_to_map
    [ ("status", VStr "idle");
      ("current_step", VStr "");
      ("progress", VNum 0);
      ("total_steps", VNum 0);
      ("start_time", VNull);
      ("end_time", VNull);
      ("error_message", VNull);
      ("results", VObj ∅);
      ("logs", VArr []) ].

Record ProcessingStoreState : Type := {
  processingState : gmap string Value;
  stats : Value;
  isLoading : bool;
  error : Value;
  isWebSocketConnected : bool
}.

Definition initial : ProcessingStoreState :=
  {| processingState := defaultProcessingState;
     stats := VNull;
     isLoading := false;
     error := VNull;
     isWebSocketConnected := false |}.

(** zustand's [set] with a partial object, one function per field. *)
Definition set_processingState (p : gmap string Value) (s : ProcessingStoreState) :=
  {| processingState := p; stats := stats s; isLoading := isLoading s;
     error := error s; isWebSocketConnected := isWebSocketConnected s |}.
Definition set_stats (v : Value) (s : ProcessingStoreState) :=
  {| processingState := processingState s; stats := v; isLoading := isLoading s;
     error := error s; isWebSocketConnected := isWebSocketConnected s |}.
Definition set_isLoading (b : bool) (s : ProcessingStoreState) :=
  {| processingState := processingState s; stats := stats s; isLoading := b;
     error := error s; isWebSocketConnected := isWebSocketConnected s |}.
Definition set_error (v : Value) (s : ProcessingStoreState) :=
  {| processingState := processingState s; stats := stats s; isLoading := isLoading s;
     error := v; isWebSocketConnected := isWebSocketConnected s |}.

(** What an [async] action has done when its promise settles. *)
Inductive Settled : Type :=
  | Fulfilled
  | Rejected (reason : Value).

(** [error.response?.data?.detail || fallback] inside a [catch (error)];
    [None] when reading [error.response] itself throws. *)
Definition detail_or (error : Value) (fallback : string) : option Value :=
  if nullish error then None
  else Some (or_else (opt_get (opt_get (get error "response") "data") "detail")
                     (VStr fallback)).

(** *** loadProcessingStatus *)

(** Up to [await apiMethods.processing.getStatus()]. *)
Definition loadProcessingStatus_pending (s : ProcessingStoreState) : ProcessingStoreState :=
  set_error VNull (set_isLoading true s).

(** The call resolved; [status] is [response.data]. *)
Definition loadProcessingStatus_fulfilled (status : Value) (s : ProcessingStoreState)
  : ProcessingStoreState :=
  set_isLoading false
    (set_processingState (spread status ∪ defaultProcessingState) s).

(** The call rejected with [error]; the action swallows it. *)
Definition loadProcessingStatus_rejected (error : Value) (s : ProcessingStoreState)
  : ProcessingStoreState * Settled :=
  match detail_or error "Failed to load processing status" with
  | Some d => (set_isLoading false (set_error d s), Fulfilled)
  | None => (s, Rejected TypeError)
  end.

(** *** loadStatistics *)

(** The statistics call resolved with [stats] as [response.data]; a
    failure (also reading [stats.database] off a missing body) is logged
    and leaves the store alone. *)
Definition loadStatistics_fulfilled (stats : Value) (s : ProcessingStoreState)
  : ProcessingStoreState :=
  let database := get stats "database" in
  let processing := get stats "processing" in
  if nullish stats then s else
  set_stats
    (VObj (list_to_map
       [ ("total_summaries", or_else (opt_get database "summaries_count") (VNum 0));
         ("summaries_last_week", or_else (opt_get database "summaries_last_week") (VNum 0));
         ("total_links", or_else (opt_get database "links_count") (VNum 0));
         ("total_insights", or_else (opt_get database "insights_count") (VNum 0));
         ("last_run", or_else (opt_get processing "last_run") VNull);
         ("api_calls_today", VNum 0) ])) s.

(** *** startProcessing *)

Definition startProcessing_pending (s : ProcessingStoreState) : ProcessingStoreState :=
  set_error VNull (set_isLoading true s).

(** [apiMethods.processing.start] resolved; [now] is
    [new Date().toISOString()]. *)
Definition startProcessing_fulfilled (now : string) (s : ProcessingStoreState)
  : ProcessingStoreState :=
  set_isLoading false
    (set_processingState
       (<["logs" := VArr []]>
        (<["current_step" := VStr "Starting..."]>
         (<["progress" := VNum 0]>
          (<["error_message" := VNull]>
           (<["end_time" := VNull]>
            (<["start_time" := VStr now]>
             (<["status" := VStr "running"]> (processingState s)))))))) s).

(** The start call rejected with [error]: record it and throw it again. *)
Definition startProcessing_rejected (error : Value) (s : ProcessingStoreState)
  : ProcessingStoreState * Settled :=
  match detail_or error "Failed to start processing" with
  | Some d => (set_isLoading false (set_error d s), Rejected error)
  | None => (s, Rejected TypeError)
  end.

(** *** stopProcessing *)

Definition stopProcessing_pending (s : ProcessingStoreState) : ProcessingStoreState :=
  set_error VNull (set_isLoading true s).

Definition stopProcessing_fulfilled (s : ProcessingStoreState) : ProcessingStoreState :=
  set_isLoading false s.

Definition stopProcessing_rejected (error : Value) (s : ProcessingStoreState)
  : ProcessingStoreState * Settled :=
  match detail_or error "Failed to stop processing" with
  | Some d => (set_isLoading false (set_error d s), Rejected error)
  | None => (s, Rejected TypeError)
  end.

(** *** handleWebSocketMessage *)

(** What the handler starts besides updating the store. *)
Inductive Effect : Type :=
  | LoadStatistics
  | ConsoleLog (text : string).

Definition handleWebSocketMessage (message : WebSocketMessage) (s : ProcessingStoreState)
  : ProcessingStoreState * list Effect :=
  let data := data message in
  if String.eqb (type message) "status_update"
     || String.eqb (type message) "processing_update" then
    if truthy data then
      (set_processingState (spread data ∪ processingState s) s, [])
    else (s, [])
  else if String.eqb (type message) "processing_complete" then
    if truthy data then
      (set_processingState
         (<["status" := VStr "completed"]> (spread data ∪ processingState s)) s,
       [LoadStatistics])
    else (s, [])
  else if String.eqb (type message) "processing_error" then
    if truthy data then
      (set_error (get data "error")
         (set_processingState
            (<["error_message" := get data "error"]>
             (<["status" := VStr "error"]>
              (spread (get data "state") ∪ processingState s))) s),
       [])
    else (s, [])
  else if String.eqb (type message) "pong" then (s, [])
  else (s, [ConsoleLog "Unknown WebSocket message type:"]).

Definition setWebSocketConnected (connected : bool) (s : ProcessingStoreState) :=
  {| processingState := processingState s; stats := stats s; isLoading := isLoading s;
     error := error s; isWebSocketConnected := connected |}.

Definition clearError (s : ProcessingStoreState) : ProcessingStoreState :=
  set_error VNull s.

Definition reset (s : ProcessingStoreState) : ProcessingStoreState := initial.

(** *** Reading the job state *)

Definition status_of (s : ProcessingStoreState) : Value :=
  default VUndef (processingState s !! "status").

Definition progress_of (s : ProcessingStoreState) : Value :=
  default VUndef (processingState s !! "progress").

Definition end_time_of (s : ProcessingStoreState) : Value :=
  default VUndef (processingState s !! "end_time").

Definition error_message_of (s : ProcessingStoreState) : Value :=
  default VUndef (processingState s !! "error_message").


End ProcessingStore.

(** ** components/providers/WebSocketProvider.tsx *)

Module WebSocketProvider.
Import JS.

(** The argument of [notifications.show], without the icon. *)
Record Notification : Type := {
  title : string;
  message : Value;
  color : string;
  autoClose : Z
}.

(** What the provider's subscriber acts on: the store, the notifications
    shown so far, and the work the store handler has started. *)
Record App : Type := {
  store : ProcessingStore.ProcessingStoreState;
  shown : list Notification;
  started : list ProcessingStore.Effect
}.

Definition initial : App :=
  {| store := ProcessingStore.initial; shown := []; started := [] |}.

Definition show (n : Notification) (a : App) : App :=
  {| store := store a; shown := shown a ++ [n]; started := started a |}.

Definition processingComplete : Notification :=
  {| title := "Processing Complete";
     message := VStr "Newsletter processing has finished successfully!";
     color := "green";
     autoClose := 5000 |}.

Definition processingFailed (m : ProcessingStore.WebSocketMessage) : Notification :=
  {| title := "Processing Failed";
     message := or_else (opt_get (ProcessingStore.data m) "error")
                        (VStr "An error occurred during processing");
     color := "red";
     autoClose := 10000 |}.

(** The callback the provider passes to [subscribe]. *)
Definition onMessage (m : ProcessingStore.WebSocketMessage) (a : App) : App :=
  let r := ProcessingStore.handleWebSocketMessage m (store a) in
  let a := {| store := fst r; shown := shown a; started := started a ++ snd r |} in
  if String.eqb (ProcessingStore.type m) "processing_complete" then
    show processingComplete a
  else if String.eqb (ProcessingStore.type m) "processing_error" then
    show (processingFailed m) a
  else a.

Definition handleConnect (a : App) : App :=
  {| store := ProcessingStore.setWebSocketConnected true (store a);
     shown := shown a; started := started a |}.

Definition handleDisconnect (a : App) : App :=
  {| store := ProcessingStore.setWebSocketConnected false (store a);
     shown := shown a; started := started a |}.

(** How many notifications with a given title are on screen history. *)
Definition raised (t : string) (a : App) : nat :=
  length (filter (fun n => title n = t) (shown a)).

End WebSocketProvider.

(** ** hooks/useWebSocket.ts *)

Module ConnectionStatus.
Inductive t : Type := connecting | connected | disconnected | error.
End ConnectionStatus.

Module WebSocketHook.

(** [WebSocket.readyState] *)
Inductive ReadyState : Type := CONNECTING | OPEN | CLOSING | CLOSED.

#[global] Instance ReadyState_eq_dec : EqDecision ReadyState.
Proof. solve_decision. Defined.

(** How a subscriber's callback ends; either way its effects on the
    consumer's side have happened. *)
Inductive Completion (W : Type) : Type :=
  | Returns (w : W)
  | Throws (w : W).
Arguments Returns {W} w.
Arguments Throws {W} w.

(** [WebSocketOptions], with the defaults of the hook filled in by
    [defaults]. *)
Record WebSocketOptions (W : Type) : Type := {
  reconnectInterval : Z;
  maxReconnectAttempts : nat;
  onConnect : W -> W;
  onDisconnect : W -> W;
  onError : W -> W
}.
Arguments reconnectInterval {W} _.
Arguments maxReconnectAttempts {W} _.
Arguments onConnect {W} _.
Arguments onDisconnect {W} _.
Arguments onError {W} _.

Definition defaults (W : Type) : WebSocketOptions W :=
  {| reconnectInterval := 3000; maxReconnectAttempts := 5;
     onConnect := id; onDisconnect := id; onError := id |}.

Section Hook.

(** [W] is the state of the consumers the hook calls into. *)
Context {W : Type}.
Variable options : WebSocketOptions W.

(** The closure behind each registered callback.  Callbacks are told
    apart by identity, here a number; they act on the consumers' state
    and do not reach into the hook's own refs. *)
Variable callback : nat -> ProcessingStore.WebSocketMessage -> W -> Completion W.

(** The React state and refs of one [useWebSocket] instance, followed by
    the part of the browser it talks to: every socket it has constructed
    (a socket is named by its position), the timers that are armed, the
    frames sent and the console.  [delivered] records each callback
    invocation and [world] is the consumers' state. *)
Record Hook : Type := {
  isConnected : bool;
  connectionStatus : ConnectionStatus.t;
  lastMessage : option ProcessingStore.WebSocketMessage;
  error : option string;
  websocketRef : option nat;
  reconnectTimeoutRef : option nat;
  reconnectAttemptsRef : nat;
  pingIntervalRef : option nat;
  messageCallbacksRef : list nat;
  sockets : list ReadyState;
  timeouts : list nat;
  intervals : list nat;
  nextTimerId : nat;
  sent : list (nat * string);
  console : list string;
  delivered : list (nat * ProcessingStore.WebSocketMessage);
  world : W
}.

Definition set_isConnected (v : bool) (s : Hook) : Hook :=
  {| isConnected := v; connectionStatus := connectionStatus s;
     lastMessage := lastMessage s; error := error s; websocketRef := websocketRef s;
     reconnectTimeoutRef := reconnectTimeoutRef s;
     reconnectAttemptsRef := reconnectAttemptsRef s;
     pingIntervalRef := pingIntervalRef s;
     messageCallbacksRef := messageCallbacksRef s; sockets := sockets s;
     timeouts := timeouts s; intervals := intervals s; nextTimerId := nextTimerId s;
     sent := sent s; console := console s; delivered := delivered s;
     world := world s |}.
Definition set_connectionStatus (v : ConnectionStatus.t) (s : Hook) : Hook :=
  {| isConnected := isConnected s; connectionStatus := v; lastMessage := lastMessage s;
     error := error s; websocketRef := websocketRef s;
     reconnectTimeoutRef := reconnectTimeoutRef s;
     reconnectAttemptsRef := reconnectAttemptsRef s;
     pingIntervalRef := pingIntervalRef s;
     messageCallbacksRef := messageCallbacksRef s; sockets := sockets s;
     timeouts := timeouts s; intervals := intervals s; nextTimerId := nextTimerId s;
     sent := sent s; console := console s; delivered := delivered s;
     world := world s |}.
Definition set_lastMessage (v : option ProcessingStore.WebSocketMessage) (s : Hook) : Hook :=
  {| isConnected := isConnected s; connectionStatus := connectionStatus s;
     lastMessage := v; error := error s; websocketRef := websocketRef s;
     reconnectTimeoutRef := reconnectTimeoutRef s;
     reconnectAttemptsRef := reconnectAttemptsRef s;
     pingIntervalRef := pingIntervalRef s;
     messageCallbacksRef := messageCallbacksRef s; sockets := sockets s;
     timeouts := timeouts s; intervals := intervals s; nextTimerId := nextTimerId s;
     sent := sent s; console := console s; delivered := delivered s;
     world := world s |}.
Definition set_error (v : option string) (s : Hook) : Hook :=
  {| isConnected := isConnected s; connectionStatus := connectionStatus s;
     lastMessage := lastMessage s; error := v; websocketRef := websocketRef s;
     reconnectTimeoutRef := reconnectTimeoutRef s;
     reconnectAttemptsRef := reconnectAttemptsRef s;
     pingIntervalRef := pingIntervalRef s;
     messageCallbacksRef := messageCallbacksRef s; sockets := sockets s;
     timeouts := timeouts s; intervals := intervals s; nextTimerId := nextTimerId s;
     sent := sent s; console := console s; delivered := delivered s;
     world := world s |}.
Definition set_websocketRef (v : option nat) (s : Hook) : Hook :=
  {| isConnected := isConnected s; connectionStatus := connectionStatus s;
     lastMessage := lastMessage s; error := error s; websocketRef := v;
     reconnectTimeoutRef := reconnectTimeoutRef s;
     reconnectAttemptsRef := reconnectAttemptsRef s;
     pingIntervalRef := pingIntervalRef s;
     messageCallbacksRef := messageCallbacksRef s; sockets := sockets s;
     timeouts := timeouts s; intervals := intervals s; nextTimerId := nextTimerId s;
     sent := sent s; console := console s; delivered := delivered s;
     world := world s |}.
Definition set_reconnectTimeoutRef (v : option nat) (s : Hook) : Hook :=
  {| isConnected := isConnected s; connectionStatus := connectionStatus s;
     lastMessage := lastMessage s; error := error s; websocketRef := websocketRef s;
     reconnectTimeoutRef := v; reconnectAttemptsRef := reconnectAttemptsRef s;
     pingIntervalRef := pingIntervalRef s;
     messageCallbacksRef := messageCallbacksRef s; sockets := sockets s;
     timeouts := timeouts s; intervals := intervals s; nextTimerId := nextTimerId s;
     sent := sent s; console := console s; delivered := delivered s;
     world := world s |}.
Definition set_reconnectAttemptsRef (v : nat) (s : Hook) : Hook :=
  {| isConnected := isConnected s; connectionStatus := connectionStatus s;
     lastMessage := lastMessage s; error := error s; websocketRef := websocketRef s;
     reconnectTimeoutRef := reconnectTimeoutRef s; reconnectAttemptsRef := v;
     pingIntervalRef := pingIntervalRef s;
     messageCallbacksRef := messageCallbacksRef s; sockets := sockets s;
     timeouts := timeouts s; intervals := intervals s; nextTimerId := nextTimerId s;
     sent := sent s; console := console s; delivered := delivered s;
     world := world s |}.
Definition set_pingIntervalRef (v : option nat) (s : Hook) : Hook :=
  {| isConnected := isConnected s; connectionStatus := connectionStatus s;
     lastMessage := lastMessage s; error := error s; websocketRef := websocketRef s;
     reconnectTimeoutRef := reconnectTimeoutRef s;
     reconnectAttemptsRef := reconnectAttemptsRef s; pingIntervalRef := v;
     messageCallbacksRef := messageCallbacksRef s; sockets := sockets s;
     timeouts := timeouts s; intervals := intervals s; nextTimerId := nextTimerId s;
     sent := sent s; console := console s; delivered := delivered s;
     world := world s |}.
Definition set_messageCallbacksRef (v : list nat) (s : Hook) : Hook :=
  {| isConnected := isConnected s; connectionStatus := connectionStatus s;
     lastMessage := lastMessage s; error := error s; websocketRef := websocketRef s;
     reconnectTimeoutRef := reconnectTimeoutRef s;
     reconnectAttemptsRef := reconnectAttemptsRef s;
     pingIntervalRef := pingIntervalRef s; messageCallbacksRef := v;
     sockets := sockets s; timeouts := timeouts s; intervals := intervals s;
     nextTimerId := nextTimerId s; sent := sent s; console := console s;
     delivered := delivered s; world := world s |}.
Definition set_sockets (v : list ReadyState) (s : Hook) : Hook :=
  {| isConnected := isConnected s; connectionStatus := connectionStatus s;
     lastMessage := lastMessage s; error := error s; websocketRef := websocketRef s;
     reconnectTimeoutRef := reconnectTimeoutRef s;
     reconnectAttemptsRef := reconnectAttemptsRef s;
     pingIntervalRef := pingIntervalRef s;
     messageCallbacksRef := messageCallbacksRef s; sockets := v;
     timeouts := timeouts s; intervals := intervals s; nextTimerId := nextTimerId s;
     sent := sent s; console := console s; delivered := delivered s;
     world := world s |}.
Definition set_timeouts (v : list nat) (s : Hook) : Hook :=
  {| isConnected := isConnected s; connectionStatus := connectionStatus s;
     lastMessage := lastMessage s; error := error s; websocketRef := websocketRef s;
     reconnectTimeoutRef := reconnectTimeoutRef s;
     reconnectAttemptsRef := reconnectAttemptsRef s;
     pingIntervalRef := pingIntervalRef s;
     messageCallbacksRef := messageCallbacksRef s; sockets := sockets s; timeouts := v;
     intervals := intervals s; nextTimerId := nextTimerId s; sent := sent s;
     console := console s; delivered := delivered s; world := world s |}.
Definition set_intervals (v : list nat) (s : Hook) : Hook :=
  {| isConnected := isConnected s; connectionStatus := connectionStatus s;
     lastMessage := lastMessage s; error := error s; websocketRef := websocketRef s;
     reconnectTimeoutRef := reconnectTimeoutRef s;
     reconnectAttemptsRef := reconnectAttemptsRef s;
     pingIntervalRef := pingIntervalRef s;
     messageCallbacksRef := messageCallbacksRef s; sockets := sockets s;
     timeouts := timeouts s; intervals := v; nextTimerId := nextTimerId s;
     sent := sent s; console := console s; delivered := delivered s;
     world := world s |}.
Definition set_nextTimerId (v : nat) (s : Hook) : Hook :=
  {| isConnected := isConnected s; connectionStatus := connectionStatus s;
     lastMessage := lastMessage s; error := error s; websocketRef := websocketRef s;
     reconnectTimeoutRef := reconnectTimeoutRef s;
     reconnectAttemptsRef := reconnectAttemptsRef s;
     pingIntervalRef := pingIntervalRef s;
     messageCallbacksRef := messageCallbacksRef s; sockets := sockets s;
     timeouts := timeouts s; intervals := intervals s; nextTimerId := v;
     sent := sent s; console := console s; delivered := delivered s;
     world := world s |}.
Definition set_sent (v : list (nat * string)) (s : Hook) : Hook :=
  {| isConnected := isConnected s; connectionStatus := connectionStatus s;
     lastMessage := lastMessage s; error := error s; websocketRef := websocketRef s;
     reconnectTimeoutRef := reconnectTimeoutRef s;
     reconnectAttemptsRef := reconnectAttemptsRef s;
     pingIntervalRef := pingIntervalRef s;
     messageCallbacksRef := messageCallbacksRef s; sockets := sockets s;
     timeouts := timeouts s; intervals := intervals s; nextTimerId := nextTimerId s;
     sent := v; console := console s; delivered := delivered s; world := world s |}.
Definition set_console (v : list string) (s : Hook) : Hook :=
  {| isConnected := isConnected s; connectionStatus := connectionStatus s;
     lastMessage := lastMessage s; error := error s; websocketRef := websocketRef s;
     reconnectTimeoutRef := reconnectTimeoutRef s;
     reconnectAttemptsRef := reconnectAttemptsRef s;
     pingIntervalRef := pingIntervalRef s;
     messageCallbacksRef := messageCallbacksRef s; sockets := sockets s;
     timeouts := timeouts s; intervals := intervals s; nextTimerId := nextTimerId s;
     sent := sent s; console := v; delivered := delivered s; world := world s |}.
Definition set_delivered (v : list (nat * ProcessingStore.WebSocketMessage)) (s : Hook) : Hook :=
  {| isConnected := isConnected s; connectionStatus := connectionStatus s;
     lastMessage := lastMessage s; error := error s; websocketRef := websocketRef s;
     reconnectTimeoutRef := reconnectTimeoutRef s;
     reconnectAttemptsRef := reconnectAttemptsRef s;
     pingIntervalRef := pingIntervalRef s;
     messageCallbacksRef := messageCallbacksRef s; sockets := sockets s;
     timeouts := timeouts s; intervals := intervals s; nextTimerId := nextTimerId s;
     sent := sent s; console := console s; delivered := v; world := world s |}.
Definition set_world (v : W) (s : Hook) : Hook :=
  {| isConnected := isConnected s; connectionStatus := connectionStatus s;
     lastMessage := lastMessage s; error := error s; websocketRef := websocketRef s;
     reconnectTimeoutRef := reconnectTimeoutRef s;
     reconnectAttemptsRef := reconnectAttemptsRef s;
     pingIntervalRef := pingIntervalRef s;
     messageCallbacksRef := messageCallbacksRef s; sockets := sockets s;
     timeouts := timeouts s; intervals := intervals s; nextTimerId := nextTimerId s;
     sent := sent s; console := console s; delivered := delivered s; world := v |}.

(** The hook before its mount effect has run. *)
Definition mounted (w : W) : Hook :=
  {| isConnected := false; connectionStatus := ConnectionStatus.disconnected;
     lastMessage := None; error := None; websocketRef := None;
     reconnectTimeoutRef := None; reconnectAttemptsRef := 0; pingIntervalRef := None;
     messageCallbacksRef := []; sockets := []; timeouts := []; intervals := [];
     nextTimerId := 1; sent := []; console := []; delivered := []; world := w |}.

(** *** The browser side *)

Definition clearTimeout (t : nat) (s : Hook) : Hook :=
  set_timeouts (filter (fun x => x ≠ t) (timeouts s)) s.

Definition clearInterval (t : nat) (s : Hook) : Hook :=
  set_intervals (filter (fun x => x ≠ t) (intervals s)) s.

(** [setTimeout] and [setInterval] hand out fresh positive handles. *)
Definition setTimeout (s : Hook) : nat * Hook :=
  (nextTimerId s,
   set_nextTimerId (S (nextTimerId s)) (set_timeouts (timeouts s ++ [nextTimerId s]) s)).

Definition setInterval (s : Hook) : nat * Hook :=
  (nextTimerId s,
   set_nextTimerId (S (nextTimerId s)) (set_intervals (intervals s ++ [nextTimerId s]) s)).

(** [socket.close()]: a connecting or open socket starts closing and its
    close event follows later; on a closing or closed socket nothing
    happens. *)
Definition close (i : nat) (s : Hook) : Hook :=
  match sockets s !! i with
  | Some CONNECTING | Some OPEN => set_sockets (<[i := CLOSING]> (sockets s)) s
  | _ => s
  end.

(** [websocketRef.current?.readyState === WebSocket.OPEN] *)
Definition isOpen (s : Hook) : bool :=
  match websocketRef s with
  | Some i => bool_decide (sockets s !! i = Some OPEN)
  | None => false
  end.

(** *** The hook's functions *)

Definition cleanup (s : Hook) : Hook :=
  let s := match reconnectTimeoutRef s with
           | Some t => set_reconnectTimeoutRef None (clearTimeout t s)
           | None => s
           end in
  let s := match pingIntervalRef s with
           | Some p => set_pingIntervalRef None (clearInterval p s)
           | None => s
           end in
  match websocketRef s with
  | Some i => set_websocketRef None (close i s)
  | None => s
  end.

(** [connect()]; [throws] says whether [new WebSocket(fullUrl)] throws. *)
Definition connect (throws : bool) (s : Hook) : Hook :=
  if isOpen s then s
  else
    let s := cleanup s in
    let s := set_error None (set_connectionStatus ConnectionStatus.connecting s) in
    if throws then
      set_console (console s ++ ["WebSocket connection error:"])
        (set_error (Some "Failed to connect")
           (set_connectionStatus ConnectionStatus.error s))
    else
      set_websocketRef (Some (length (sockets s)))
        (set_sockets (sockets s ++ [CONNECTING]) s).

Definition onopen (s : Hook) : Hook :=
  let s := set_isConnected true s in
  let s := set_connectionStatus ConnectionStatus.connected s in
  let s := set_error None s in
  let s := set_reconnectAttemptsRef 0 s in
  let s := set_world (onConnect options (world s)) s in
  let '(p, s) := setInterval s in
  set_pingIntervalRef (Some p) s.

(** The body of the interval armed by [onopen]. *)
Definition ping (s : Hook) : Hook :=
  match websocketRef s with
  | Some i =>
      if bool_decide (sockets s !! i = Some OPEN)
      then set_sent (sent s ++ [(i, "ping")]) s
      else s
  | None => s
  end.

(** [messageCallbacksRef.current.forEach], each call in its own
    try/catch. *)
Fixpoint forEach (cbs : list nat) (m : ProcessingStore.WebSocketMessage) (s : Hook) : Hook :=
  match cbs with
  | [] => s
  | c :: rest =>
      let s := set_delivered (delivered s ++ [(c, m)]) s in
      let s := match callback c m (world s) with
               | Returns w => set_world w s
               | Throws w =>
                   set_console (console s ++ ["Error in message callback:"]) (set_world w s)
               end in
      forEach rest m s
  end.

(** [frame] is [JSON.parse(event.data)], [None] when it throws. *)
Definition onmessage (frame : option ProcessingStore.WebSocketMessage) (s : Hook) : Hook :=
  match frame with
  | Some m => forEach (messageCallbacksRef s) m (set_lastMessage (Some m) s)
  | None => set_console (console s ++ ["Failed to parse WebSocket message:"]) s
  end.

Definition onclose (s : Hook) : Hook :=
  let s := set_isConnected false s in
  let s := set_connectionStatus ConnectionStatus.disconnected s in
  let s := set_world (onDisconnect options (world s)) s in
  let s := match pingIntervalRef s with
           | Some p => set_pingIntervalRef None (clearInterval p s)
           | None => s
           end in
  if bool_decide (reconnectAttemptsRef s < maxReconnectAttempts options) then
    let s := set_reconnectAttemptsRef (S (reconnectAttemptsRef s)) s in
    let '(t, s) := setTimeout s in
    set_reconnectTimeoutRef (Some t) s
  else s.

Definition onerror (s : Hook) : Hook :=
  let s := set_connectionStatus ConnectionStatus.error s in
  let s := set_error (Some "WebSocket connection error") s in
  set_world (onError options (world s)) s.

Definition disconnect (s : Hook) : Hook :=
  let s := cleanup s in
  let s := set_isConnected false s in
  set_connectionStatus ConnectionStatus.disconnected s.

Definition send (text : string) (s : Hook) : bool * Hook :=
  match websocketRef s with
  | Some i =>
      if bool_decide (sockets s !! i = Some OPEN)
      then (true, set_sent (sent s ++ [(i, text)]) s)
      else (false, s)
  | None => (false, s)
  end.

(** [Set.add] keeps insertion order and ignores a callback already in. *)
Definition subscribe (c : nat) (s : Hook) : Hook :=
  if bool_decide (c ∈ messageCallbacksRef s) then s
  else set_messageCallbacksRef (messageCallbacksRef s ++ [c]) s.

(** The function [subscribe] returns. *)
Definition unsubscribe (c : nat) (s : Hook) : Hook :=
  set_messageCallbacksRef (filter (fun x => x ≠ c) (messageCallbacksRef s)) s.

(** *** Events *)

(** Calls made by the owner of the hook, and what the browser does on its
    own: socket events and timers running out. *)
Inductive Event : Type :=
  | Connect (throws : bool)
  | Disconnect
  | Send (text : string)
  | Subscribe (c : nat)
  | Unsubscribe (c : nat)
  | Opened (i : nat)
  | Message (i : nat) (frame : option ProcessingStore.WebSocketMessage)
  | Errored (i : nat)
  | Closed (i : nat)
  | TimeoutFired (t : nat) (throws : bool)
  | IntervalFired (t : nat).

Definition byOwner (e : Event) : bool :=
  match e with
  | Connect _ | Disconnect | Send _ | Subscribe _ | Unsubscribe _ => true
  | _ => false
  end.

(** One event; [None] when the browser cannot produce it in this state. *)
Definition step (e : Event) (s : Hook) : option Hook :=
  match e with
  | Connect throws => Some (connect throws s)
  | Disconnect => Some (disconnect s)
  | Send text => Some (snd (send text s))
  | Subscribe c => Some (subscribe c s)
  | Unsubscribe c => Some (unsubscribe c s)
  | Opened i =>
      match sockets s !! i with
      | Some CONNECTING => Some (onopen (set_sockets (<[i := OPEN]> (sockets s)) s))
      | _ => None
      end
  | Message i frame =>
      match sockets s !! i with
      | Some OPEN => Some (onmessage frame s)
      | _ => None
      end
  | Errored i =>
      match sockets s !! i with
      | Some CONNECTING | Some OPEN | Some CLOSING => Some (onerror s)
      | _ => None
      end
  | Closed i =>
      match sockets s !! i with
      | Some CONNECTING | Some OPEN | Some CLOSING =>
          Some (onclose (set_sockets (<[i := CLOSED]> (sockets s)) s))
      | _ => None
      end
  | TimeoutFired t throws =>
      if bool_decide (t ∈ timeouts s)
      then Some (connect throws (set_timeouts (filter (fun x => x ≠ t) (timeouts s)) s))
      else None
  | IntervalFired t =>
      if bool_decide (t ∈ intervals s) then Some (ping s) else None
  end.

Fixpoint run (es : list Event) (s : Hook) : option Hook :=
  match es with
  | [] => Some s
  | e :: rest =>
      match step e s with
      | Some s' => run rest s'
      | None => None
      end
  end.

(** [new WebSocket] has been called as often as there are sockets. *)
Definition attempts (s : Hook) : nat := length (sockets s).

(** The messages a callback has been called with, oldest first. *)
Definition received (c : nat) (s : Hook) : list ProcessingStore.WebSocketMessage :=
  snd <$> filter (fun p => fst p = c) (delivered s).

End Hook.

Arguments Hook W : clear implicits.

End WebSocketHook.

(** ** The dashboard: provider and hook wired together *)

Module Dashboard.
Import JS.

(** The options the provider passes to [useWebSocket]; its [onError]
    only writes to the console. *)
Definition options : WebSocketHook.WebSocketOptions WebSocketProvider.App :=
  {| WebSocketHook.reconnectInterval := 3000;
     WebSocketHook.maxReconnectAttempts := 5;
     WebSocketHook.onConnect := WebSocketProvider.handleConnect;
     WebSocketHook.onDisconnect := WebSocketProvider.handleDisconnect;
     WebSocketHook.onError := id |}.

(** The provider's subscriber is the only callback it registers. *)
Definition callback (c : nat) (m : ProcessingStore.WebSocketMessage)
    (a : WebSocketProvider.App) : WebSocketHook.Completion WebSocketProvider.App :=
  WebSocketHook.Returns (WebSocketProvider.onMessage m a).

Definition step := WebSocketHook.step options callback.
Definition run := WebSocketHook.run options callback.

(** The dashboard once its mount effects have run and the first socket
    has opened. *)
Definition connected : WebSocketHook.Hook WebSocketProvider.App :=
  default (WebSocketHook.mounted WebSocketProvider.initial)
    (run [WebSocketHook.Connect false; WebSocketHook.Subscribe 0; WebSocketHook.Opened 0]
         (WebSocketHook.mounted WebSocketProvider.initial)).

End Dashboard.

(** ** Event sequences *)

Module Episodes.
Import JS ProcessingStore.

Definition status_update (d : Value) : WebSocketMessage :=
  {| type := "status_update"; data := d |}.
Definition processing_complete (d : Value) : WebSocketMessage :=
  {| type := "processing_complete"; data := d |}.
Definition processing_error (d : Value) : WebSocketMessage :=
  {| type := "processing_error"; data := d |}.

Definition object (fields : list (string * Value)) : Value :=
  VObj (list_to_map fields).

(** The store after a list of messages, oldest first. *)
Definition handleAll (ms : list WebSocketMessage) (s : ProcessingStoreState)
  : ProcessingStoreState :=
  foldl (fun s m => fst (handleWebSocketMessage m s)) s ms.





(** Scenario A of the dashboard: the first progress report of a run. *)
Definition fetching : WebSocketMessage :=
  status_update (object [("status", VStr "running"); ("progress", VNum 3);
                         ("total_steps", VNum 10); ("current_step", VStr "fetch")]).

Definition finished : WebSocketMessage :=
  processing_complete (object [("results", object [("summaries_generated", VNum 5)])]).

Definition late : WebSocketMessage :=
  status_update (object [("progress", VNum 1)]).

End Episodes.

(** ** Reconnection runs *)

Module Retries.
Import WebSocketHook.

Section Retries.
Context {W : Type}.
Variable options : WebSocketOptions W.
Variable callback : nat -> ProcessingStore.WebSocketMessage -> W -> Completion W.

(** The transport goes away, with or without an error event first. *)
Definition drop (withError : bool) (i : nat) (s : Hook W) : option (Hook W) :=
  s ← (if withError then step options callback (Errored i) s else Some s);
  step options callback (Closed i) s.

(** One failed reconnect: the armed timer runs out, [connect] builds a
    socket, and that socket closes without ever opening. *)
Definition failedRetry (withError : bool) (s : Hook W) : option (Hook W) :=
  t ← reconnectTimeoutRef s;
  s ← step options callback (TimeoutFired t false) s;
  i ← websocketRef s;
  drop withError i s.

Fixpoint failedRetries (withErrors : list bool) (s : Hook W) : option (Hook W) :=
  match withErrors with
  | [] => Some s
  | e :: rest => s ← failedRetry e s; failedRetries rest s
  end.

(** Nothing is left that the browser could do on its own. *)
Definition quiet (s : Hook W) : Prop :=
  ∀ e, byOwner e = false → step options callback e s = None.

(** Socket [i] is the one [websocketRef] holds and the only one not yet
    closed; no reconnect timer is armed, and the only interval is the
    heartbeat. *)
Definition live (i : nat) (s : Hook W) : Prop :=
  websocketRef s = Some i
  ∧ (sockets s !! i = Some CONNECTING ∨ sockets s !! i = Some OPEN)
  ∧ (∀ j r, sockets s !! j = Some r → j = i ∨ r = CLOSED)
  ∧ timeouts s = []
  ∧ intervals s = option_list (pingIntervalRef s).

(** The hook between connections: every socket it ever built is closed,
    no heartbeat runs, the status shown is [disconnected], the counter
    is [k], and a reconnect timer is armed or not. *)
Definition parked (k : nat) (armed : bool) (s : Hook W) : Prop :=
  reconnectAttemptsRef s = k
  ∧ (∀ j r, sockets s !! j = Some r → r = CLOSED)
  ∧ intervals s = []
  ∧ pingIntervalRef s = None
  ∧ connectionStatus s = ConnectionStatus.disconnected
  ∧ if armed then ∃ t, reconnectTimeoutRef s = Some t ∧ timeouts s = [t]
    else timeouts s = [].

(** No [connect()] by the owner among the events. *)
Definition noConnect (es : list Event) : Prop :=
  Forall (fun e => ∀ throws, e ≠ Connect throws) es.

End Retries.

End Retries.

(** ** States the hook can get into *)

Module Reachable.
Import WebSocketHook.

Section Reachable.
Context {W : Type}.
Variable options : WebSocketOptions W.
Variable callback : nat -> ProcessingStore.WebSocketMessage -> W -> Completion W.

(** A socket the browser may still open or deliver frames on. *)
Definition isLive (r : ReadyState) : bool :=
  match r with
  | CONNECTING | OPEN => true
  | CLOSING | CLOSED => false
  end.

(** What some sequence of calls and browser events leads to, starting
    from the freshly mounted hook. *)
Definition reachable (s : Hook W) : Prop :=
  ∃ w es, run options callback es (mounted w) = Some s.

(** What the refs and the browser agree on between any two events. *)
Definition coherent (s : Hook W) : Prop :=
  (∀ j r, sockets s !! j = Some r → isLive r = true → websocketRef s = Some j)
  ∧ intervals s = option_list (pingIntervalRef s)
  ∧ (is_Some (pingIntervalRef s) → isOpen s = true)
  ∧ (isConnected s = true → isOpen s = true)
  ∧ NoDup (messageCallbacksRef s).

(** Socket [i] is open and current while socket [j], built before it and
    replaced by a later [connect()], has not delivered its close event
    yet. *)
Definition superseded (j i : nat) (s : Hook W) : Prop :=
  j ≠ i
  ∧ websocketRef s = Some i
  ∧ sockets s !! i = Some OPEN
  ∧ sockets s !! j = Some CLOSING
  ∧ isConnected s = true
  ∧ connectionStatus s = ConnectionStatus.connected.

End Reachable.

End Reachable.

(** ** utils/api.tsx *)

Module ApiUtils.
Import JS.


End ApiUtils.

(** ** components/settings/SettingsSections.tsx: the processing card *)

Module ProcessingSection.
Import JS.

Section FormatDuration.

(** [new Date(v).getTime()] in milliseconds, [None] for an invalid date
    (NaN). *)
Variable getTime : Value -> option Z.

(** [formatDuration()]; [currentTime] is the card's clock in
    milliseconds and [None] stands for [null]. *)
Definition formatDuration (processingState : gmap string Value) (currentTime : Z)
  : option string :=
  let start_time := default VUndef (processingState !! "start_time") in
  let end_time := default VUndef (processingState !! "end_time") in
  if negb (truthy start_time) then None
  else
    let start := getTime start_time in
    let end_ := if truthy end_time then getTime end_time else Some currentTime in
    match start, end_ with
    | Some a, Some b =>
        let durationMs := (b - a)%Z in
        if (durationMs <? 0)%Z then Some "0m 0s"
        else
          let minutes := (durationMs / 60000)%Z in
          let seconds := ((durationMs mod 60000) / 1000)%Z in
          Some (pretty minutes +:+ "m " +:+ pretty seconds +:+ "s")
    | _, _ => Some "NaNm NaNs"
    end.

End FormatDuration.

End ProcessingSection.

(** ** Message sequences at the provider *)

Module Feed.
Import JS.

(** The provider's subscriber run over a list of messages, oldest
    first. *)
Definition onMessages (ms : list ProcessingStore.WebSocketMessage)
    (a : WebSocketProvider.App) : WebSocketProvider.App :=
  foldl (fun a m => WebSocketProvider.onMessage m a) a ms.

(** How many of the messages have the given type. *)
Definition ofType (t : string) (ms : list ProcessingStore.WebSocketMessage) : nat :=
  length (filter (fun m => ProcessingStore.type m = t) ms).

(** The fields [startProcessing] writes on success. *)
Definition startFields : list string :=
  ["status"; "start_time"; "end_time"; "error_message"; "progress"; "current_step"; "logs"].

End Feed.

(** ** Situations of the dashboard *)

Module Situations.
Import WebSocketHook.

(** The store's copy of the connection state, as the dashboard pages
    read it. *)
Definition connectionFlag (s : Hook WebSocketProvider.App) : bool :=
  ProcessingStore.isWebSocketConnected (WebSocketProvider.store (world s)).

(** The dashboard after its open connection went away. *)
Definition lost : Hook WebSocketProvider.App :=
  default Dashboard.connected (Dashboard.run [Closed 0] Dashboard.connected).

(** The hook asked to connect twice before the first socket opened (a
    remount): the first socket is closing, the second has opened. *)
Definition replaced : Hook WebSocketProvider.App :=
  default (mounted WebSocketProvider.initial)
    (Dashboard.run [Connect false; Connect false; Subscribe 0; Opened 1]
       (mounted WebSocketProvider.initial)).

(** A clock for the examples: a time is the number of milliseconds it
    carries. *)
Definition millis (v : JS.Value) : option Z :=
  match v with
  | JS.VNum n => Some n
  | _ => None
  end.

(** A job that started at millisecond 1000 and has not ended. *)
Definition startedJob : gmap string JS.Value := {[ "start_time" := JS.VNum 1000 ]}.

End Situations.

(** * Properties *)

(** ** Object spread *)

Section Spread.
Context {V : Type}.
Implicit Types d m : gmap string V.

Lemma spread_carried d m k v : d !! k = Some v → (d ∪ m) !! k = Some v.
Proof. intros Hk. by apply lookup_union_Some_l. Qed.

Lemma spread_kept d m k : d !! k = None → (d ∪ m) !! k = m !! k.
Proof. intros Hk. by apply lookup_union_r. Qed.

Lemma spread_twice d m : d ∪ (d ∪ m) = d ∪ m.
Proof. by rewrite (assoc_L (∪)), (idemp_L (∪)). Qed.

Lemma spread_then_set_twice d m k v :
  <[k := v]> (d ∪ <[k := v]> (d ∪ m)) = <[k := v]> (d ∪ m).
Proof.
  apply map_eq. intros j. destruct (decide (k = j)) as [->|Hne].
  - by rewrite !lookup_insert_eq.
  - rewrite !lookup_insert_ne by done.
    rewrite !lookup_union, lookup_insert_ne by done.
    rewrite lookup_union. by destruct (d !! j), (m !! j).
Qed.

End Spread.

(** ** The job state store *)

Section Store.
Import JS ProcessingStore.

Lemma store_eta (s : ProcessingStoreState) :
  set_processingState (processingState s) s = s.
Proof. by destruct s. Qed.

Lemma handle_update m s :
  type m = "status_update" ∨ type m = "processing_update" →
  handleWebSocketMessage m s =
    if truthy (data m)
    then (set_processingState (spread (data m) ∪ processingState s) s, [])
    else (s, []).
Proof. intros [H|H]; unfold handleWebSocketMessage; by rewrite H. Qed.

Lemma handle_complete m s :
  type m = "processing_complete" →
  handleWebSocketMessage m s =
    if truthy (data m)
    then (set_processingState
            (<["status" := VStr "completed"]> (spread (data m) ∪ processingState s)) s,
          [LoadStatistics])
    else (s, []).
Proof. intros H; unfold handleWebSocketMessage; by rewrite H. Qed.

Lemma handle_error m s :
  type m = "processing_error" →
  handleWebSocketMessage m s =
    if truthy (data m)
    then (set_error (get (data m) "error")
            (set_processingState
               (<["error_message" := get (data m) "error"]>
                (<["status" := VStr "error"]>
                 (spread (get (data m) "state") ∪ processingState s))) s),
          [])
    else (s, []).
Proof. intros H; unfold handleWebSocketMessage; by rewrite H. Qed.

Lemma falsy_has_no_error (d : Value) :
  truthy d = false → opt_get d "error" = VUndef.
Proof. by destruct d. Qed.


End Store.

(** ** Claims about the job state store and the notifier *)

Section StoreClaims.
Import JS ProcessingStore WebSocketProvider Episodes.

(** C1, as amended.  Handling the same [processing_complete] message
    (with a payload) a second time leaves the whole store as the first
    handling left it, with status [completed]; the provider shows one
    "Processing Complete" notification for each message it is handed, so
    the second handling adds a second notification. *)
Theorem complete_twice_same_state_one_more_notification
    (m : WebSocketMessage) (a : App) :
  type m = "processing_complete" →
  truthy (data m) = true →
  let once := onMessage m a in
  let twice := onMessage m once in
  store twice = store once
  ∧ status_of (store once) = VStr "completed"
  ∧ shown once = shown a ++ [processingComplete]
  ∧ shown twice = shown once ++ [processingComplete].
Proof.
  intros Hty Hd. unfold onMessage. rewrite !handle_complete by done.
  rewrite Hty, Hd. cbn.
  split; [|split; [|done]].
  - unfold set_processingState; cbn. f_equal. apply spread_then_set_twice.
  - unfold status_of; cbn. by rewrite lookup_insert_eq.
Qed.

Lemma complete_twice_same_state_one_more_notification_witness :
  type finished = "processing_complete"
  ∧ truthy (data finished) = true
  ∧ store (onMessage finished (onMessage finished initial))
    = store (onMessage finished initial).
Proof.
  split; [reflexivity|]. split; [reflexivity|].
  exact (proj1 (complete_twice_same_state_one_more_notification
                  finished initial eq_refl eq_refl)).
Defined.





(** C5, as amended.  A [processing_error] message with a payload puts
    the store in status [error] with the payload's [error] as message.
    Without a payload the store is left exactly as it was (it does not
    move to [error]); the notifier still shows "Processing Failed" with
    its generic text.  A frame that does not parse is logged and dropped
    by the hook: no callback runs and the consumers' state is untouched. *)
Theorem error_reaches_store_only_with_payload
    (m : WebSocketMessage) (s : ProcessingStoreState) (a : App)
    {W : Type} (options : WebSocketHook.WebSocketOptions W)
    (callback : nat → WebSocketMessage → W → WebSocketHook.Completion W)
    (h : WebSocketHook.Hook W) :
  type m = "processing_error" →
  let s' := fst (handleWebSocketMessage m s) in
  let h' := WebSocketHook.onmessage callback None h in
  (truthy (data m) = true →
     status_of s' = VStr "error"
     ∧ error_message_of s' = get (data m) "error"
     ∧ error s' = get (data m) "error")
  ∧ (truthy (data m) = false →
     s' = s
     ∧ store (onMessage m a) = store a
     ∧ shown (onMessage m a) =
         shown a ++ [ {| title := "Processing Failed";
                         message := VStr "An error occurred during processing";
                         color := "red"; autoClose := 10000 |} ])
  ∧ WebSocketHook.world h' = WebSocketHook.world h
  ∧ WebSocketHook.delivered h' = WebSocketHook.delivered h
  ∧ WebSocketHook.lastMessage h' = WebSocketHook.lastMessage h
  ∧ WebSocketHook.console h' =
      WebSocketHook.console h ++ ["Failed to parse WebSocket message:"].
Proof.
  intros Hty. cbn zeta. split; [|split; [|done]].
  - intros Hd. rewrite handle_error, Hd by done.
    unfold status_of, error_message_of; cbn.
    rewrite lookup_insert_eq, lookup_insert_ne, lookup_insert_eq by done. done.
  - intros Hd. unfold onMessage. rewrite !handle_error, !Hd, Hty by done. cbn.
    split; [done|]. split; [done|].
    unfold processingFailed. by rewrite (falsy_has_no_error _ Hd).
Qed.

Lemma error_reaches_store_only_with_payload_witness :
  type (processing_error VUndef) = "processing_error"
  ∧ fst (handleWebSocketMessage (processing_error VUndef)
           (handleAll [fetching] ProcessingStore.initial))
    = handleAll [fetching] ProcessingStore.initial.
Proof.
  split; [reflexivity|].
  exact (proj1 (proj1 (proj2 (error_reaches_store_only_with_payload
           (processing_error VUndef) (handleAll [fetching] ProcessingStore.initial)
           WebSocketProvider.initial Dashboard.options Dashboard.callback
           (WebSocketHook.mounted WebSocketProvider.initial) eq_refl)) eq_refl)).
Defined.

(** C6, as amended.  A successful [startProcessing] leaves status
    [running] and [end_time] null.  On [processing_complete] with a
    payload the store sets status [completed]; [end_time] then is the
    payload's [end_time] when it carries one and otherwise whatever it
    was before: the store never stamps the time itself. *)
Theorem end_time_comes_from_payload
    (m : WebSocketMessage) (s : ProcessingStoreState) (now : string) :
  type m = "processing_complete" →
  truthy (data m) = true →
  let s' := fst (handleWebSocketMessage m s) in
  status_of s' = VStr "completed"
  ∧ processingState s' !! "end_time" =
      match spread (data m) !! "end_time" with
      | Some v => Some v
      | None => processingState s !! "end_time"
      end
  ∧ status_of (startProcessing_fulfilled now s) = VStr "running"
  ∧ end_time_of (startProcessing_fulfilled now s) = VNull.
Proof.
  intros Hty Hd. cbn zeta. rewrite handle_complete, Hd by done.
  split; [|split; [|split]].
  - unfold status_of; cbn. by rewrite lookup_insert_eq.
  - cbn. rewrite lookup_insert_ne by done.
    destruct (spread (data m) !! "end_time") as [v|] eqn:He.
    + by apply spread_carried.
    + by apply spread_kept.
  - unfold status_of; cbn. by rewrite !lookup_insert_ne, lookup_insert_eq by done.
  - unfold end_time_of; cbn. by rewrite !lookup_insert_ne, lookup_insert_eq by done.
Qed.

Lemma end_time_comes_from_payload_witness :
  type finished = "processing_complete"
  ∧ truthy (data finished) = true
  ∧ status_of (fst (handleWebSocketMessage finished
                      (startProcessing_fulfilled "2025-01-01T00:00:00.000Z"
                         ProcessingStore.initial)))
    = VStr "completed".
Proof.
  split; [reflexivity|]. split; [reflexivity|].
  exact (proj1 (end_time_comes_from_payload finished
           (startProcessing_fulfilled "2025-01-01T00:00:00.000Z" ProcessingStore.initial)
           "2025-01-01T00:00:00.000Z" eq_refl eq_refl)).
Defined.

(** C8.  When [loadProcessingStatus] succeeds, the job state becomes the
    server's answer laid over the defaults: a field of the answer wins,
    a field it lacks takes its default, and nothing of the previous job
    state survives, so two stores with different histories end with the
    same job state. *)
Theorem snapshot_overwrites_job_state
    (status : Value) (s s2 : ProcessingStoreState) :
  let s' := loadProcessingStatus_fulfilled status (loadProcessingStatus_pending s) in
  processingState s' = spread status ∪ defaultProcessingState
  ∧ (∀ k, processingState s' !! k =
          match spread status !! k with
          | Some v => Some v
          | None => defaultProcessingState !! k
          end)
  ∧ processingState (loadProcessingStatus_fulfilled status s2) = processingState s'
  ∧ isLoading s' = false.
Proof.
  cbn. split; [done|]. split; [|done].
  intros k. rewrite lookup_union. by destruct (spread status !! k), (_ !! k).
Qed.

(** C10.  When the start call fails, [startProcessing] leaves the job
    state, the statistics and the connection flag as they were; it only
    clears the loading flag and records the error text (the server's
    detail or "Failed to start processing"), and its promise rejects
    with the error it caught. *)
Theorem failed_start_keeps_job_state (e : Value) (s : ProcessingStoreState) :
  let r := startProcessing_rejected e (startProcessing_pending s) in
  processingState (fst r) = processingState s
  ∧ processingState (fst (startProcessing_rejected e s)) = processingState s
  ∧ stats (fst r) = stats s
  ∧ isWebSocketConnected (fst r) = isWebSocketConnected s
  ∧ snd r = Rejected (if nullish e then TypeError else e)
  ∧ isLoading (fst r) = nullish e
  ∧ error (fst r) =
      default VNull (detail_or e "Failed to start processing").
Proof.
  unfold startProcessing_rejected, detail_or.
  destruct (nullish e); cbn; done.
Qed.

End StoreClaims.

(** ** Counterexamples on the store *)

Section StoreCounterexamples.
Import JS ProcessingStore WebSocketProvider Episodes.



(** C5 as written does not hold: a running job that receives
    [processing_error] without payload stays running. *)
Lemma error_without_payload_stays_running :
  let running := handleAll [fetching] ProcessingStore.initial in
  let after := fst (handleWebSocketMessage (processing_error VUndef) running) in
  status_of running = VStr "running"
  ∧ status_of after = VStr "running"
  ∧ status_of after ≠ VStr "error"
  ∧ error_message_of after = VNull.
Proof. cbn zeta. repeat split; try reflexivity. vm_compute. discriminate. Qed.

(** C6 as written does not hold: after scenario A then B the job is
    completed and [end_time] is still null. *)
Lemma completed_without_end_time :
  let completed := handleAll [fetching; finished] ProcessingStore.initial in
  status_of completed = VStr "completed"
  ∧ end_time_of completed = VNull.
Proof. split; reflexivity. Qed.

End StoreCounterexamples.

(** ** The reconnection policy *)

Section Reconnection.
Import WebSocketHook Retries.
Context {W : Type}.
Variable options : WebSocketOptions W.
Variable callback : nat -> ProcessingStore.WebSocketMessage -> W -> Completion W.

Lemma not_open_when_closed (l : list ReadyState) i :
  (∀ j r, l !! j = Some r → r = CLOSED) →
  bool_decide (l !! i = Some OPEN) = false.
Proof.
  intros Hall. apply bool_decide_eq_false. intros Hi.
  by specialize (Hall _ _ Hi).
Qed.

Lemma close_when_closed i (s : Hook W) :
  (∀ j r, sockets s !! j = Some r → r = CLOSED) → close i s = s.
Proof.
  intros Hall. unfold close. destruct (sockets s !! i) as [r|] eqn:Hi; [|done].
  by rewrite (Hall _ _ Hi).
Qed.

(** A live socket that goes away parks the hook, arming a retry while
    the counter is below the bound. *)
Lemma drop_parks withError i k (s : Hook W) :
  live i s → reconnectAttemptsRef s = k →
  ∃ s', drop options callback withError i s = Some s'
        ∧ attempts s' = attempts s
        ∧ parked (if bool_decide (k < maxReconnectAttempts options) then S k else k) (bool_decide (k < maxReconnectAttempts options)) s'.
Proof.
  intros (Href & Hlive & Hothers & Htimeouts & Hintervals) Hk.
  assert (Hclosed : ∀ j r, <[i := CLOSED]> (sockets s) !! j = Some r → r = CLOSED).
  { intros j r. destruct (decide (i = j)) as [<-|Hne].
    - destruct Hlive as [Hi|Hi]; apply lookup_lt_Some in Hi;
        rewrite list_lookup_insert_eq by done; congruence.
    - rewrite list_lookup_insert_ne by done. intros Hj.
      destruct (Hothers _ _ Hj); congruence. }
  assert (Hdrop : drop options callback withError i s =
            Some (onclose options (set_sockets (<[i := CLOSED]> (sockets
                    (if withError then onerror options s else s)))
                    (if withError then onerror options s else s)))).
  { unfold drop, step. destruct withError; cbn;
      destruct Hlive as [Hi|Hi]; rewrite ?Hi; cbn; rewrite ?Hi; done. }
  rewrite Hdrop. clear Hdrop. eexists; split; [done|].
  destruct s; cbn in *; subst.
  unfold attempts, parked, onclose.
  destruct withError, pingIntervalRef0; cbn; case_bool_decide; cbn;
    rewrite ?length_insert; repeat split; eauto;
    try (case_decide; [congruence|done]).
Qed.

(** When the armed timer runs out, [connect] builds a new socket. *)
Lemma timer_reconnects k (s : Hook W) :
  parked k true s →
  ∃ t s', reconnectTimeoutRef s = Some t
          ∧ step options callback (TimeoutFired t false) s = Some s'
          ∧ live (attempts s) s'
          ∧ websocketRef s' = Some (attempts s)
          ∧ reconnectAttemptsRef s' = k
          ∧ attempts s' = S (attempts s)
          ∧ connectionStatus s' = ConnectionStatus.connecting.
Proof.
  intros (Hk & Hclosed & Hintervals & Hping & Hstatus & t & Ht & Htimeouts).
  exists t. destruct s; cbn in *; subst.
  rewrite bool_decide_eq_true_2 by set_solver.
  rewrite filter_cons_False, filter_nil by naive_solver.
  eexists. split; [done|]. split; [done|].
  unfold connect, isOpen; cbn.
  replace (match websocketRef0 with
           | Some i => bool_decide (sockets0 !! i = Some OPEN)
           | None => false
           end) with false
    by (destruct websocketRef0; [by rewrite not_open_when_closed|done]).
  unfold cleanup; cbn.
  assert (Hnew : ∀ j r, (sockets0 ++ [CONNECTING]) !! j = Some r →
                        j = length sockets0 ∨ r = CLOSED).
  { intros j r Hj. apply lookup_app_Some in Hj as [Hj | [Hge Hj]].
    - right; eauto.
    - left. apply lookup_lt_Some in Hj. cbn in Hj. lia. }
  destruct websocketRef0 as [i|]; [rewrite close_when_closed by done|]; cbn;
    unfold live, attempts; cbn; rewrite length_app, Nat.add_comm;
    (repeat split; try done);
    left; by rewrite lookup_app_r, Nat.sub_diag by lia.
Qed.

Lemma failedRetry_parks withError k (s : Hook W) :
  parked k true s →
  ∃ s', failedRetry options callback withError s = Some s'
        ∧ attempts s' = S (attempts s)
        ∧ parked (if bool_decide (k < maxReconnectAttempts options) then S k else k)
                 (bool_decide (k < maxReconnectAttempts options)) s'.
Proof.
  intros Hparked.
  destruct (timer_reconnects k s Hparked) as (t & s1 & Ht & Hstep & Hlive & Href & Hk & Hn & _).
  destruct (drop_parks withError _ k s1 Hlive Hk) as (s' & Hdrop & Hsame & Hparked').
  exists s'. unfold failedRetry. rewrite Ht; cbn -[step drop].
  rewrite Hstep; cbn -[step drop]. rewrite Href; cbn -[step drop].
  split; [done|]. split; [congruence|done].
Qed.

(** With no timer armed and every socket closed, the browser has nothing
    left to deliver. *)
Lemma parked_quiet k (s : Hook W) :
  parked k false s → quiet options callback s.
Proof.
  intros (Hk & Hclosed & Hintervals & Hping & Hstatus & Htimeouts) e Henv.
  destruct e; try discriminate; cbn.
  - destruct (sockets s !! i) as [r|] eqn:Hi; [|done]. by rewrite (Hclosed _ _ Hi).
  - destruct (sockets s !! i) as [r|] eqn:Hi; [|done]. by rewrite (Hclosed _ _ Hi).
  - destruct (sockets s !! i) as [r|] eqn:Hi; [|done]. by rewrite (Hclosed _ _ Hi).
  - destruct (sockets s !! i) as [r|] eqn:Hi; [|done]. by rewrite (Hclosed _ _ Hi).
  - rewrite Htimeouts. by rewrite bool_decide_eq_false_2 by set_solver.
  - rewrite Hintervals. by rewrite bool_decide_eq_false_2 by set_solver.
Qed.

(** Short of [connect()], nothing the owner calls gets a parked hook
    going again. *)
Lemma parked_step k e (s s' : Hook W) :
  parked k false s →
  (∀ throws, e ≠ Connect throws) →
  step options callback e s = Some s' →
  parked k false s' ∧ attempts s' = attempts s.
Proof.
  intros Hparked Hne Hstep.
  destruct (byOwner e) eqn:Howner;
    [|by rewrite (parked_quiet k s Hparked e Howner) in Hstep].
  destruct Hparked as (Hk & Hclosed & Hintervals & Hping & Hstatus & Htimeouts).
  destruct e; try discriminate; cbn in Hstep; simplify_eq.
  - by destruct (Hne throws).
  - unfold disconnect, cleanup. destruct s; cbn in *; subst.
    destruct reconnectTimeoutRef0, websocketRef0; cbn;
      rewrite ?close_when_closed by done; done.
  - unfold send. destruct (websocketRef s); [|done].
    by rewrite not_open_when_closed.
  - unfold subscribe. by case_bool_decide.
  - done.
Qed.

Lemma parked_run k es (s s' : Hook W) :
  parked k false s →
  noConnect es →
  run options callback es s = Some s' →
  parked k false s' ∧ attempts s' = attempts s.
Proof.
  intros Hparked Hes. revert s Hparked.
  induction Hes as [|e es He Hes IH]; intros s Hparked Hrun; cbn in Hrun.
  - by simplify_eq.
  - destruct (step options callback e s) as [s1|] eqn:Hstep; [|done].
    destruct (parked_step k e s s1 Hparked He Hstep) as [Hparked1 Hsame].
    destruct (IH s1 Hparked1 Hrun) as [? ?]. split; [done|congruence].
Qed.

(** From an armed park at counter [k], retries keep failing one after
    the other until the counter has reached the bound. *)
Lemma failedRetries_parks withErrors : ∀ k (s : Hook W),
  parked k true s →
  k ≤ maxReconnectAttempts options →
  k + length withErrors ≤ S (maxReconnectAttempts options) →
  ∃ s', failedRetries options callback withErrors s = Some s'
        ∧ attempts s' = attempts s + length withErrors
        ∧ (k + length withErrors ≤ maxReconnectAttempts options →
           parked (k + length withErrors) true s')
        ∧ (k + length withErrors = S (maxReconnectAttempts options) →
           parked (maxReconnectAttempts options) false s').
Proof.
  induction withErrors as [|e rest IH]; intros k s Hparked Hk Hlen; cbn in *.
  - exists s. rewrite !Nat.add_0_r. split; [done|]. split; [done|]. split; [done|lia].
  - destruct (failedRetry_parks e k s Hparked) as (s1 & Hretry & Hn & Hparked1).
    rewrite Hretry; cbn. case_bool_decide as Hlt.
    + destruct (IH (S k) s1 Hparked1) as (s' & Hrest & Hn' & Harmed & Hstopped); [lia..|].
      exists s'. split; [done|]. split; [lia|]. split; intros ?.
      * replace (k + S (length rest)) with (S k + length rest) by lia. apply Harmed. lia.
      * apply Hstopped. lia.
    + assert (k = maxReconnectAttempts options) as -> by lia.
      destruct rest; [|cbn in Hlen; lia].
      exists s1. cbn. split; [done|]. split; [lia|]. split; [lia|done].
Qed.

(** C7.  The counter starts at 0.  When a connection with counter 0 is
    lost and every reconnect fails, each failure below the bound
    [maxReconnectAttempts] raises the counter by one and arms the next
    retry; the failure of retry number [maxReconnectAttempts] arms
    nothing.  From then on the browser has no event left for the hook,
    and whatever the owner calls short of [connect()], the status stays
    [disconnected] and no socket is built. *)
Theorem retries_stop_at_the_bound
    (withError : bool) (withErrors : list bool) (i : nat) (s : Hook W) :
  live i s →
  reconnectAttemptsRef s = 0 →
  length withErrors ≤ maxReconnectAttempts options →
  reconnectAttemptsRef (mounted (world s)) = 0
  ∧ ∃ s1 s',
      drop options callback withError i s = Some s1
      ∧ failedRetries options callback withErrors s1 = Some s'
      ∧ attempts s' = attempts s + length withErrors
      ∧ (length withErrors < maxReconnectAttempts options →
         reconnectAttemptsRef s' = S (length withErrors)
         ∧ ∃ t, reconnectTimeoutRef s' = Some t ∧ timeouts s' = [t])
      ∧ (length withErrors = maxReconnectAttempts options →
         reconnectAttemptsRef s' = maxReconnectAttempts options
         ∧ timeouts s' = []
         ∧ connectionStatus s' = ConnectionStatus.disconnected
         ∧ quiet options callback s'
         ∧ ∀ es s'', noConnect es → run options callback es s' = Some s'' →
             connectionStatus s'' = ConnectionStatus.disconnected
             ∧ timeouts s'' = []
             ∧ attempts s'' = attempts s').
Proof.
  intros Hlive Hzero Hlen. split; [done|].
  destruct (drop_parks withError i 0 s Hlive Hzero) as (s1 & Hdrop & Hsame & Hparked).
  exists s1.
  assert (Hstopped : ∀ s', parked (maxReconnectAttempts options) false s' →
            reconnectAttemptsRef s' = maxReconnectAttempts options
            ∧ timeouts s' = []
            ∧ connectionStatus s' = ConnectionStatus.disconnected
            ∧ quiet options callback s'
            ∧ ∀ es s'', noConnect es → run options callback es s' = Some s'' →
                connectionStatus s'' = ConnectionStatus.disconnected
                ∧ timeouts s'' = []
                ∧ attempts s'' = attempts s').
  { intros s' Hp. pose proof Hp as (Hk & _ & _ & _ & Hstatus & Htimeouts).
    split; [done|]. split; [done|]. split; [done|].
    split; [by eapply parked_quiet|].
    intros es s'' Hes Hrun.
    destruct (parked_run _ es s' s'' Hp Hes Hrun) as [(_ & _ & _ & _ & ? & ?) ?].
    done. }
  case_bool_decide as Hmax.
  - destruct (failedRetries_parks withErrors 1 s1 Hparked) as
      (s' & Hretries & Hn & Harmed & Hdone); [lia..|].
    exists s'. split; [done|]. split; [done|]. split; [lia|]. split.
    + intros Hlt. destruct Harmed as (Hk & _ & _ & _ & _ & Ht); [lia|]. done.
    + intros Heq. apply Hstopped, Hdone. lia.
  - assert (maxReconnectAttempts options = 0) as Hmax0 by lia.
    destruct withErrors; [|cbn in Hlen; lia].
    exists s1. cbn. split; [done|]. split; [done|]. split; [lia|]. split; [lia|].
    intros _. apply Hstopped. by rewrite Hmax0.
Qed.

(** With only a retry timer pending, [disconnect()] is final: the timer
    is cancelled and the hook stays parked. *)
Lemma disconnect_when_parked k armed (s : Hook W) :
  parked k armed s →
  parked k false (disconnect s) ∧ attempts (disconnect s) = attempts s.
Proof.
  intros (Hk & Hclosed & Hintervals & Hping & Hstatus & Harmed).
  unfold disconnect, cleanup. destruct s; cbn in *; subst.
  destruct armed.
  - destruct Harmed as (t & -> & ->).
    destruct websocketRef0; cbn; rewrite ?close_when_closed by done; cbn;
      unfold parked; cbn; (repeat split; try done); (case_decide; [congruence|done]).
  - subst. destruct reconnectTimeoutRef0, websocketRef0; cbn;
      rewrite ?close_when_closed by done; done.
Qed.

(** On a live socket [disconnect()] only starts the closing handshake;
    the close event that follows finds the handler still attached, and
    below the bound it arms a retry whose expiry builds a new socket. *)
Lemma disconnect_when_live_is_undone i k (s : Hook W) :
  live i s →
  reconnectAttemptsRef s = k →
  k < maxReconnectAttempts options →
  connectionStatus (disconnect s) = ConnectionStatus.disconnected
  ∧ timeouts (disconnect s) = []
  ∧ ∃ s1 t s2,
      step options callback (Closed i) (disconnect s) = Some s1
      ∧ reconnectTimeoutRef s1 = Some t
      ∧ step options callback (TimeoutFired t false) s1 = Some s2
      ∧ attempts s2 = S (attempts s)
      ∧ connectionStatus s2 = ConnectionStatus.connecting.
Proof.
  intros (Href & Hlive & Hothers & Htimeouts & Hintervals) Hk Hlt.
  assert (Hclosed : ∀ j r, <[i := CLOSED]> (<[i := CLOSING]> (sockets s)) !! j = Some r →
                           r = CLOSED).
  { intros j r. rewrite list_insert_insert_eq. destruct (decide (i = j)) as [<-|Hne].
    - destruct Hlive as [Hi|Hi]; apply lookup_lt_Some in Hi;
        rewrite list_lookup_insert_eq by done; congruence.
    - rewrite list_lookup_insert_ne by done. intros Hj.
      destruct (Hothers _ _ Hj); congruence. }
  assert (Hi : is_Some (sockets s !! i)) by (destruct Hlive as [->| ->]; eauto).
  apply lookup_lt_is_Some in Hi.
  assert (Hparked : ∃ s1, step options callback (Closed i) (disconnect s) = Some s1
                          ∧ parked (S k) true s1 ∧ attempts s1 = attempts s).
  { unfold disconnect, cleanup, step, close, onclose, parked, attempts.
    destruct s; cbn in *; subst.
    destruct reconnectTimeoutRef0, pingIntervalRef0; cbn;
      destruct Hlive as [Hl|Hl]; rewrite Hl; cbn;
      rewrite list_lookup_insert_eq by done; cbn;
      rewrite bool_decide_eq_true_2 by done; cbn;
      (eexists; split; [done|]); cbn; rewrite !length_insert;
      repeat split; eauto; try (case_decide; [congruence|done]). }
  split; [done|]. split.
  { unfold disconnect, cleanup, close. destruct s; cbn in *; subst.
    destruct reconnectTimeoutRef0, pingIntervalRef0; cbn;
      destruct Hlive as [Hl|Hl]; rewrite Hl; done. }
  destruct Hparked as (s1 & Hclose & Hparked & Hsame).
  destruct (timer_reconnects (S k) s1 Hparked) as (t & s2 & Ht & Hfire & _ & _ & _ & Hn & Hst).
  exists s1, t, s2. rewrite Hn, Hsame. done.
Qed.

End Reconnection.

Section DashboardReconnection.
Import WebSocketHook Retries.

Lemma dashboard_connected_state :
  Dashboard.connected =
    {| isConnected := true; connectionStatus := ConnectionStatus.connected;
       lastMessage := None; error := None; websocketRef := Some 0;
       reconnectTimeoutRef := None; reconnectAttemptsRef := 0;
       pingIntervalRef := Some 1; messageCallbacksRef := [0]; sockets := [OPEN];
       timeouts := []; intervals := [1]; nextTimerId := 2; sent := []; console := [];
       delivered := [];
       world := WebSocketProvider.handleConnect WebSocketProvider.initial |}.
Proof. vm_compute. reflexivity. Qed.

Lemma dashboard_connected_live : live 0 Dashboard.connected.
Proof.
  rewrite dashboard_connected_state. unfold live; cbn.
  split; [reflexivity|]. split; [by right|]. split; [|done].
  intros j r Hj. destruct j as [|j]; [by left|]. by destruct j.
Qed.

Lemma retries_stop_at_the_bound_witness :
  live 0 Dashboard.connected
  ∧ reconnectAttemptsRef Dashboard.connected = 0
  ∧ length [true; false; true; false; true] ≤ maxReconnectAttempts Dashboard.options
  ∧ ∃ s1 s',
      drop Dashboard.options Dashboard.callback false 0 Dashboard.connected = Some s1
      ∧ failedRetries Dashboard.options Dashboard.callback
          [true; false; true; false; true] s1 = Some s'
      ∧ attempts s' = attempts Dashboard.connected + 5.
Proof.
  assert (Hzero : reconnectAttemptsRef Dashboard.connected = 0)
    by (by rewrite dashboard_connected_state).
  assert (Hlen : length [true; false; true; false; true]
                 ≤ maxReconnectAttempts Dashboard.options) by (cbn; lia).
  split; [exact dashboard_connected_live|]. split; [exact Hzero|].
  split; [exact Hlen|].
  destruct (retries_stop_at_the_bound Dashboard.options Dashboard.callback
              false [true; false; true; false; true] 0 Dashboard.connected
              dashboard_connected_live Hzero Hlen)
    as (_ & s1 & s' & Hdrop & Hretries & Hn & _).
  exists s1, s'. split; [exact Hdrop|]. split; [exact Hretries|exact Hn].
Defined.

(** C2.  The dashboard with its connection open: [disconnect()] leaves
    the status [disconnected] with no timer armed, but the socket is
    only closing.  Its close event then runs the close handler, which
    arms a retry; when that timer runs out a second socket is built, and
    it opens: the dashboard is connected again without anyone having
    called [connect()]. *)
Theorem disconnect_on_open_connection_reconnects :
  connectionStatus <$> Dashboard.run [Disconnect] Dashboard.connected
    = Some ConnectionStatus.disconnected
  ∧ timeouts <$> Dashboard.run [Disconnect] Dashboard.connected = Some []
  ∧ attempts <$> Dashboard.run [Disconnect] Dashboard.connected = Some 1
  ∧ timeouts <$> Dashboard.run [Disconnect; Closed 0] Dashboard.connected = Some [2]
  ∧ attempts <$> Dashboard.run [Disconnect; Closed 0; TimeoutFired 2 false]
                   Dashboard.connected = Some 2
  ∧ connectionStatus <$> Dashboard.run [Disconnect; Closed 0; TimeoutFired 2 false; Opened 1]
                           Dashboard.connected = Some ConnectionStatus.connected.
Proof. repeat split; vm_compute; reflexivity. Qed.

(** C1 as written does not hold: the same [processing_complete] message
    handled twice, the second time after a reconnect and with no start
    in between, leaves the same job state but a second notification on
    screen. *)
Lemma complete_notified_again_after_reconnect :
  let complete := WebSocketProvider.raised "Processing Complete" in
  let once := Dashboard.run [Message 0 (Some Episodes.finished)] Dashboard.connected in
  let twice := Dashboard.run [Message 0 (Some Episodes.finished); Closed 0;
                              TimeoutFired 2 false; Opened 1;
                              Message 1 (Some Episodes.finished)] Dashboard.connected in
  (fun s => complete (world s)) <$> once = Some 1
  ∧ (fun s => complete (world s)) <$> twice = Some 2
  ∧ (fun s => ProcessingStore.processingState (WebSocketProvider.store (world s))) <$> twice
    = (fun s => ProcessingStore.processingState (WebSocketProvider.store (world s))) <$> once
  ∧ (fun s => ProcessingStore.status_of (WebSocketProvider.store (world s))) <$> twice
    = Some (JS.VStr "completed").
Proof. repeat split; vm_compute; reflexivity. Qed.

End DashboardReconnection.

(** ** The subscriber registry *)

Section Registry.
Import WebSocketHook.
Context {W : Type}.
Variable options : WebSocketOptions W.
Variable callback : nat -> ProcessingStore.WebSocketMessage -> W -> Completion W.

Lemma forEach_delivered cbs m : ∀ s : Hook W,
  delivered (forEach callback cbs m s) = delivered s ++ ((fun c => (c, m)) <$> cbs)
  ∧ sockets (forEach callback cbs m s) = sockets s
  ∧ messageCallbacksRef (forEach callback cbs m s) = messageCallbacksRef s
  ∧ ∃ lines, console (forEach callback cbs m s) = console s ++ lines.
Proof.
  induction cbs as [|c cbs IH]; intros s; cbn [forEach].
  - rewrite app_nil_r. split; [done|]. split; [done|]. split; [done|].
    exists []. by rewrite app_nil_r.
  - cbn. destruct (callback c m (world s)) as [w|w];
      match goal with |- context [forEach callback cbs m ?x] =>
        destruct (IH x) as (-> & -> & -> & lines & ->) end;
      cbn; rewrite <- ?app_assoc;
      (split; [done|]); (split; [done|]); (split; [done|]); eauto.
Qed.


Lemma received_one c m (cbs : list nat) :
  NoDup cbs →
  snd <$> filter (fun p : nat * ProcessingStore.WebSocketMessage => fst p = c)
                 ((fun c' => (c', m)) <$> cbs)
  = if bool_decide (c ∈ cbs) then [m] else [].
Proof.
  induction 1 as [|c' cbs Hnotin Hnodup IH]; [done|].
  cbn [fmap list_fmap]. destruct (decide (c' = c)) as [->|Hne].
  - rewrite filter_cons_True by done. cbn.
    rewrite bool_decide_eq_true_2 by set_solver.
    change (list_fmap _ _ ?f ?l) with (f <$> l). rewrite IH.
    by rewrite bool_decide_eq_false_2.
  - rewrite filter_cons_False by done.
    change (list_fmap _ _ ?f ?l) with (f <$> l) in *. rewrite IH.
    destruct (decide (c ∈ cbs)).
    + rewrite (bool_decide_eq_true_2 (c ∈ cbs)) by done.
      by rewrite bool_decide_eq_true_2 by (apply elem_of_cons; by right).
    + rewrite (bool_decide_eq_false_2 (c ∈ cbs)) by done.
      by rewrite bool_decide_eq_false_2 by (apply not_elem_of_cons; split; congruence).
Qed.

Lemma onmessage_received m c (s : Hook W) :
  NoDup (messageCallbacksRef s) →
  received c (onmessage callback (Some m) s) =
    received c s ++ (if bool_decide (c ∈ messageCallbacksRef s) then [m] else [])
  ∧ sockets (onmessage callback (Some m) s) = sockets s
  ∧ messageCallbacksRef (onmessage callback (Some m) s) = messageCallbacksRef s.
Proof.
  intros Hnodup. unfold onmessage, received.
  destruct (forEach_delivered (messageCallbacksRef s) m (set_lastMessage (Some m) s))
    as (-> & Hs & Hr & _).
  split; [|done]. cbn. by rewrite filter_app, fmap_app, received_one.
Qed.



End Registry.

Section DashboardRegistry.
Import WebSocketHook.


End DashboardRegistry.

(** ** What every reachable state of the hook satisfies *)

Section Coherence.
Import WebSocketHook Reachable.
Context {W : Type}.
Variable options : WebSocketOptions W.
Variable callback : nat -> ProcessingStore.WebSocketMessage -> W -> Completion W.

Lemma isOpen_lookup (s : Hook W) :
  isOpen s = true ↔ ∃ i, websocketRef s = Some i ∧ sockets s !! i = Some OPEN.
Proof.
  unfold isOpen. destruct (websocketRef s) as [i|].
  - rewrite bool_decide_eq_true. split; [eauto|]. by intros (j & [= <-] & ?).
  - split; [done|]. by intros (j & [=] & ?).
Qed.

(** After [cleanup] no socket is live any more and no heartbeat runs. *)
Lemma cleanup_idle (s : Hook W) :
  coherent s →
  (∀ j r, sockets (cleanup s) !! j = Some r → isLive r = false)
  ∧ intervals (cleanup s) = []
  ∧ pingIntervalRef (cleanup s) = None
  ∧ websocketRef (cleanup s) = None
  ∧ reconnectTimeoutRef (cleanup s) = None
  ∧ messageCallbacksRef (cleanup s) = messageCallbacksRef s
  ∧ isConnected (cleanup s) = isConnected s
  ∧ length (sockets (cleanup s)) = length (sockets s).
Proof.
  intros (Hone & Hint & _ & _ & _).
  assert (Hsock : ∀ j r,
            sockets (match websocketRef s with
                     | Some i => close i s
                     | None => s
                     end) !! j = Some r → isLive r = false).
  { intros j r. destruct (websocketRef s) as [i|] eqn:Href.
    - unfold close. destruct (sockets s !! i) as [ri|] eqn:Hi.
      + destruct (decide (i = j)) as [<-|Hne].
        * destruct ri; cbn; rewrite ?list_lookup_insert_eq by (by eapply lookup_lt_Some);
            intros; simplify_eq; done.
        * assert (sockets s !! j = Some r → isLive r = false) as Hold.
          { intros Hj. destruct (isLive r) eqn:Hr; [|done].
            specialize (Hone _ _ Hj Hr). congruence. }
          destruct ri; cbn; rewrite ?list_lookup_insert_ne by done; done.
      + intros Hj. destruct (isLive r) eqn:Hr; [|done].
        specialize (Hone _ _ Hj Hr). congruence.
    - intros Hj. destruct (isLive r) eqn:Hr; [|done].
      specialize (Hone _ _ Hj Hr). congruence. }
  assert (Hlen : length (sockets (match websocketRef s with
                                  | Some i => close i s
                                  | None => s
                                  end)) = length (sockets s)).
  { destruct (websocketRef s) as [i|]; [|done]. unfold close.
    destruct (sockets s !! i) as [[]|]; cbn; by rewrite ?length_insert. }
  unfold cleanup. destruct s; cbn in *; subst.
  destruct reconnectTimeoutRef0, pingIntervalRef0, websocketRef0; cbn in *;
    unfold close in *; cbn in *;
    repeat match goal with
           | |- context [sockets0 !! ?i] => destruct (sockets0 !! i) as [[]|] eqn:?; cbn in *
           end;
    repeat split; try done; try (case_decide; [congruence|done]).
Qed.


(** [coherent] only reads six fields. *)
Lemma coherent_ext (s s' : Hook W) :
  sockets s' = sockets s →
  websocketRef s' = websocketRef s →
  intervals s' = intervals s →
  pingIntervalRef s' = pingIntervalRef s →
  isConnected s' = isConnected s →
  messageCallbacksRef s' = messageCallbacksRef s →
  coherent s → coherent s'.
Proof.
  unfold coherent, isOpen. by intros -> -> -> -> -> ->.
Qed.

Lemma mounted_coherent (w : W) : coherent (mounted w).
Proof.
  unfold coherent; cbn. split; [done|]. split; [done|].
  split; [by intros [? [=]]|]. split; [done|]. apply NoDup_nil_2.
Qed.

Lemma connect_coherent throws (s : Hook W) :
  coherent s → coherent (connect throws s).
Proof.
  intros Hs. unfold connect. destruct (isOpen s) eqn:Hopen; [done|].
  destruct (cleanup_idle s Hs) as (Hdead & Hint & Hping & Href & _ & Hreg & Hcon & _).
  assert (Hoff : isConnected (cleanup s) = false).
  { rewrite Hcon. destruct Hs as (_ & _ & _ & Hd & _).
    destruct (isConnected s); [|done]. by rewrite Hd in Hopen. }
  assert (Hnodup : NoDup (messageCallbacksRef (cleanup s))).
  { rewrite Hreg. by destruct Hs as (_ & _ & _ & _ & ?). }
  clear Hs Hopen Hreg Hcon. generalize dependent (cleanup s). intros c. intros.
  destruct c; cbn in *; subst. destruct throws; unfold coherent, isOpen; cbn.
  - split; [|split; [done|split; [by intros [? [=]]|done]]].
    intros j r Hj Hr. by rewrite (Hdead _ _ Hj) in Hr.
  - split; [|split; [done|split; [by intros [? [=]]|done]]].
    intros j r Hj Hr. apply lookup_app_Some in Hj as [Hj|[Hge Hj]].
    + by rewrite (Hdead _ _ Hj) in Hr.
    + apply lookup_lt_Some in Hj as Hlt. cbn in Hlt. f_equal. lia.
Qed.

Lemma disconnect_coherent (s : Hook W) :
  coherent s → coherent (disconnect s).
Proof.
  intros Hs.
  destruct (cleanup_idle s Hs) as (Hdead & Hint & Hping & Href & _ & Hreg & _ & _).
  assert (Hnodup : NoDup (messageCallbacksRef (cleanup s))).
  { rewrite Hreg. by destruct Hs as (_ & _ & _ & _ & ?). }
  unfold disconnect. clear Hs Hreg. generalize dependent (cleanup s). intros c. intros.
  destruct c; cbn in *; subst. unfold coherent, isOpen; cbn.
  split; [|split; [done|split; [by intros [? [=]]|done]]].
  intros j r Hj Hr. by rewrite (Hdead _ _ Hj) in Hr.
Qed.

Lemma opened_coherent i (s : Hook W) :
  coherent s → sockets s !! i = Some CONNECTING →
  coherent (onopen options (set_sockets (<[i := OPEN]> (sockets s)) s)).
Proof.
  intros (Hone & Hint & Hping & Hcon & Hnodup) Hi.
  pose proof (Hone _ _ Hi eq_refl) as Href.
  assert (pingIntervalRef s = None) as Hnone.
  { destruct (pingIntervalRef s) eqn:Hp; [|done].
    apply isOpen_lookup in Hping as (i' & Hi' & Hopen); [|done]. congruence. }
  apply lookup_lt_Some in Hi as Hlt.
  destruct s; cbn in *; subst. unfold coherent, isOpen, onopen; cbn.
  split; [|split; [done|]].
  - intros j r Hj Hr. destruct (decide (i = j)) as [<-|Hne]; [done|].
    rewrite list_lookup_insert_ne in Hj by done. eauto.
  - rewrite list_lookup_insert_eq by done.
    split; [by rewrite bool_decide_eq_true_2|]. split; [by rewrite bool_decide_eq_true_2|done].
Qed.

Lemma closed_coherent i (s : Hook W) :
  coherent s → i < length (sockets s) →
  coherent (onclose options (set_sockets (<[i := CLOSED]> (sockets s)) s)).
Proof.
  intros (Hone & Hint & Hping & Hcon & Hnodup) Hlt.
  assert (Hone' : ∀ j r, <[i := CLOSED]> (sockets s) !! j = Some r →
                         isLive r = true → websocketRef s = Some j).
  { intros j r Hj Hr. destruct (decide (i = j)) as [<-|Hne].
    - rewrite list_lookup_insert_eq in Hj by done. by simplify_eq.
    - rewrite list_lookup_insert_ne in Hj by done. eauto. }
  destruct s; cbn in *; subst. unfold coherent, isOpen, onclose; cbn.
  destruct pingIntervalRef0; cbn; case_bool_decide; cbn;
    (split; [done|]); (split; [try done; by (case_decide; [congruence|done])|]);
    (split; [by intros [? [=]]|done]).
Qed.

Lemma forEach_refs cbs m : ∀ s : Hook W,
  sockets (forEach callback cbs m s) = sockets s
  ∧ websocketRef (forEach callback cbs m s) = websocketRef s
  ∧ intervals (forEach callback cbs m s) = intervals s
  ∧ pingIntervalRef (forEach callback cbs m s) = pingIntervalRef s
  ∧ isConnected (forEach callback cbs m s) = isConnected s
  ∧ messageCallbacksRef (forEach callback cbs m s) = messageCallbacksRef s
  ∧ timeouts (forEach callback cbs m s) = timeouts s
  ∧ connectionStatus (forEach callback cbs m s) = connectionStatus s
  ∧ reconnectAttemptsRef (forEach callback cbs m s) = reconnectAttemptsRef s
  ∧ sent (forEach callback cbs m s) = sent s.
Proof.
  induction cbs as [|c cbs IH]; intros s; [done|].
  cbn. destruct (callback c m (world s));
    match goal with |- context [forEach callback cbs m ?x] =>
      destruct (IH x) as (-> & -> & -> & -> & -> & -> & -> & -> & -> & ->) end; done.
Qed.

Lemma subscribe_NoDup c (s : Hook W) :
  NoDup (messageCallbacksRef s) → NoDup (messageCallbacksRef (subscribe c s)).
Proof.
  intros Hnodup. unfold subscribe. case_bool_decide as Hin; [done|]. cbn.
  apply NoDup_app. split; [done|]. split; [|apply NoDup_singleton].
  intros x Hx ->%list_elem_of_singleton. done.
Qed.

Lemma unsubscribe_NoDup c (s : Hook W) :
  NoDup (messageCallbacksRef s) → NoDup (messageCallbacksRef (unsubscribe c s)).
Proof. intros Hnodup. cbn. by apply NoDup_filter. Qed.

Lemma send_coherent text (s : Hook W) :
  coherent s → coherent (snd (send text s)).
Proof.
  intros Hs. unfold send. destruct (websocketRef s); [|done].
  case_bool_decide; [|done]. apply (coherent_ext s); [reflexivity..|done].
Qed.

Lemma subscribe_coherent c (s : Hook W) :
  coherent s → coherent (subscribe c s).
Proof.
  intros (H1 & H2 & H3 & H4 & Hnodup).
  pose proof (subscribe_NoDup c s Hnodup) as Hn.
  unfold subscribe in *. case_bool_decide; done.
Qed.

Lemma unsubscribe_coherent c (s : Hook W) :
  coherent s → coherent (unsubscribe c s).
Proof.
  intros (H1 & H2 & H3 & H4 & Hnodup).
  pose proof (unsubscribe_NoDup c s Hnodup) as Hn. done.
Qed.

Lemma onmessage_coherent frame (s : Hook W) :
  coherent s → coherent (onmessage callback frame s).
Proof.
  intros Hs. unfold onmessage. destruct frame as [m|];
    [|apply (coherent_ext s); [reflexivity..|done]].
  destruct (forEach_refs (messageCallbacksRef s) m (set_lastMessage (Some m) s))
    as (H1 & H2 & H3 & H4 & H5 & H6 & _).
  apply (coherent_ext s); [exact H1|exact H2|exact H3|exact H4|exact H5|exact H6|done].
Qed.

Lemma onerror_coherent (s : Hook W) :
  coherent s → coherent (onerror options s).
Proof. intros Hs. apply (coherent_ext s); [reflexivity..|done]. Qed.

Lemma ping_coherent (s : Hook W) :
  coherent s → coherent (ping s).
Proof.
  intros Hs. unfold ping. destruct (websocketRef s); [|done].
  case_bool_decide; [|done]. apply (coherent_ext s); [reflexivity..|done].
Qed.

Lemma step_coherent e (s s' : Hook W) :
  coherent s → step options callback e s = Some s' → coherent s'.
Proof.
  intros Hs Hstep. destruct e; cbn [step] in Hstep.
  - injection Hstep as <-. by apply connect_coherent.
  - injection Hstep as <-. by apply disconnect_coherent.
  - injection Hstep as <-. by apply send_coherent.
  - injection Hstep as <-. by apply subscribe_coherent.
  - injection Hstep as <-. by apply unsubscribe_coherent.
  - destruct (sockets s !! i) as [[]|] eqn:Hi; try discriminate.
    injection Hstep as <-. by apply opened_coherent.
  - destruct (sockets s !! i) as [[]|] eqn:Hi; try discriminate.
    injection Hstep as <-. by apply onmessage_coherent.
  - destruct (sockets s !! i) as [[]|] eqn:Hi; try discriminate;
      injection Hstep as <-; by apply onerror_coherent.
  - destruct (sockets s !! i) as [[]|] eqn:Hi; try discriminate;
      injection Hstep as <-; (apply closed_coherent; [done|by eapply lookup_lt_Some]).
  - case_bool_decide; [|discriminate]. injection Hstep as <-.
    apply connect_coherent. apply (coherent_ext s); [reflexivity..|done].
  - case_bool_decide; [|discriminate]. injection Hstep as <-. by apply ping_coherent.
Qed.

Lemma run_coherent es : ∀ s s' : Hook W,
  coherent s → run options callback es s = Some s' → coherent s'.
Proof.
  induction es as [|e es IH]; intros s s' Hs Hrun; cbn in Hrun; [by simplify_eq|].
  destruct (step options callback e s) as [s1|] eqn:Hstep; [|done].
  eapply IH; [|done]. by eapply step_coherent.
Qed.

Lemma reachable_coherent (s : Hook W) :
  reachable options callback s → coherent s.
Proof. intros (w & es & Hrun). eapply run_coherent; [apply mounted_coherent|done]. Qed.

End Coherence.

(** ** More on the hook *)

Section HookProperties.
Import WebSocketHook Retries Reachable.
Context {W : Type}.
Variable options : WebSocketOptions W.
Variable callback : nat -> ProcessingStore.WebSocketMessage -> W -> Completion W.

(** X1.  In every state the hook can reach, a socket that is connecting
    or open is the one [websocketRef] holds; so at most one socket is
    live at any time. *)
Theorem at_most_one_live_socket (s : Hook W) (i j : nat) (ri rj : ReadyState) :
  reachable options callback s →
  sockets s !! i = Some ri → isLive ri = true →
  sockets s !! j = Some rj → isLive rj = true →
  i = j ∧ websocketRef s = Some i.
Proof.
  intros Hr Hi Hli Hj Hlj.
  destruct (reachable_coherent options callback s Hr) as (Hone & _).
  pose proof (Hone _ _ Hi Hli). pose proof (Hone _ _ Hj Hlj).
  split; congruence.
Qed.



(** X4.  The registry of a reachable hook never holds a callback twice:
    subscribing a callback that is registered changes nothing, and a new
    one goes to the end. *)
Theorem registry_is_a_set (s : Hook W) (c : nat) :
  reachable options callback s →
  NoDup (messageCallbacksRef s)
  ∧ NoDup (messageCallbacksRef (subscribe c s))
  ∧ (c ∈ messageCallbacksRef s → subscribe c s = s)
  ∧ (c ∉ messageCallbacksRef s →
     messageCallbacksRef (subscribe c s) = messageCallbacksRef s ++ [c]).
Proof.
  intros Hr.
  destruct (reachable_coherent options callback s Hr) as (_ & _ & _ & _ & Hnodup).
  split; [done|]. split; [by apply subscribe_NoDup|].
  unfold subscribe. split; intros Hc.
  - by rewrite bool_decide_eq_true_2.
  - by rewrite bool_decide_eq_false_2.
Qed.

Lemma filter_other_id (c : nat) (l : list nat) :
  c ∉ l → filter (fun x => x ≠ c) l = l.
Proof.
  induction l as [|x l IH]; intros Hc; [done|].
  apply not_elem_of_cons in Hc as [Hne Hc].
  rewrite filter_cons_True by done. by rewrite IH.
Qed.

(** X5.  The function [subscribe] returns undoes the subscription: on a
    callback that was not registered, subscribe followed by unsubscribe
    gives back the same hook.  After [unsubscribe], the next message is
    not handed to that callback and still reaches every other
    registered one. *)
Theorem unsubscribe_undoes_subscribe
    (s : Hook W) (c : nat) (m : ProcessingStore.WebSocketMessage) :
  NoDup (messageCallbacksRef s) →
  (c ∉ messageCallbacksRef s → unsubscribe c (subscribe c s) = s)
  ∧ received c (onmessage callback (Some m) (unsubscribe c s)) = received c s
  ∧ ∀ c', c' ≠ c → c' ∈ messageCallbacksRef s →
          received c' (onmessage callback (Some m) (unsubscribe c s))
          = received c' s ++ [m].
Proof.
  intros Hnodup.
  assert (Hnodup' : NoDup (messageCallbacksRef (unsubscribe c s)))
    by by apply unsubscribe_NoDup.
  split; [|split].
  - intros Hc. unfold subscribe. rewrite bool_decide_eq_false_2 by done.
    unfold unsubscribe. cbn. rewrite filter_app, filter_other_id by done.
    rewrite filter_cons_False, filter_nil, app_nil_r by (intros Hne; by apply Hne).
    by destruct s.
  - destruct (onmessage_received callback m c (unsubscribe c s) Hnodup') as (-> & _).
    rewrite bool_decide_eq_false_2, app_nil_r; [done|].
    cbn. intros [Hne _]%list_elem_of_filter. by destruct Hne.
  - intros c' Hne Hc'.
    destruct (onmessage_received callback m c' (unsubscribe c s) Hnodup') as (-> & _).
    rewrite bool_decide_eq_true_2; [done|].
    cbn. by apply list_elem_of_filter.
Qed.


(** [connect()] on a parked hook: any pending retry is cancelled and one
    socket is built. *)
Lemma connect_parked k armed (s : Hook W) :
  parked k armed s →
  websocketRef (connect false s) = Some (attempts s)
  ∧ sockets (connect false s) = sockets s ++ [CONNECTING]
  ∧ timeouts (connect false s) = []
  ∧ intervals (connect false s) = []
  ∧ pingIntervalRef (connect false s) = None
  ∧ reconnectTimeoutRef (connect false s) = None
  ∧ connectionStatus (connect false s) = ConnectionStatus.connecting
  ∧ reconnectAttemptsRef (connect false s) = k.
Proof.
  intros (Hk & Hclosed & Hintervals & Hping & Hstatus & Harmed).
  unfold connect, isOpen.
  replace (match websocketRef s with
           | Some i => bool_decide (sockets s !! i = Some OPEN)
           | None => false
           end) with false
    by (destruct (websocketRef s); [by rewrite not_open_when_closed|done]).
  unfold cleanup, attempts. destruct s; cbn in *; subst. destruct armed.
  - destruct Harmed as (t & -> & ->).
    destruct websocketRef0; cbn; rewrite ?close_when_closed by done; cbn;
      (repeat split; try done); (case_decide; [congruence|done]).
  - subst. destruct reconnectTimeoutRef0, websocketRef0; cbn;
      rewrite ?close_when_closed by done; done.
Qed.

(** The socket built from a parked hook opens. *)
Lemma opened_after_parked k armed (s : Hook W) :
  parked k armed s →
  ∃ s', step options callback (Opened (attempts s)) (connect false s) = Some s'
        ∧ connectionStatus s' = ConnectionStatus.connected
        ∧ isConnected s' = true
        ∧ reconnectAttemptsRef s' = 0
        ∧ timeouts s' = []
        ∧ (∃ p, pingIntervalRef s' = Some p ∧ intervals s' = [p])
        ∧ attempts s' = S (attempts s)
        ∧ live (attempts s) s'.
Proof.
  intros Hparked.
  destruct (connect_parked k armed s Hparked)
    as (Href & Hsockets & Htimeouts & Hintervals & Hping & _ & _ & _).
  destruct Hparked as (_ & Hclosed & _).
  assert (Hnew : (sockets s ++ [CONNECTING]) !! attempts s = Some CONNECTING).
  { unfold attempts. by rewrite lookup_app_r, Nat.sub_diag by lia. }
  unfold step. rewrite Hsockets, Hnew. eexists. split; [done|].
  generalize dependent (connect false s). intros c. intros.
  unfold attempts in *. destruct c; cbn in *; subst. unfold live; cbn.
  rewrite length_insert, length_app, Nat.add_comm. cbn.
  split; [done|]. split; [done|]. split; [done|]. split; [done|].
  split; [eauto|]. split; [done|]. split; [done|].
  rewrite list_lookup_insert_eq by (rewrite length_app; cbn; lia).
  split; [by right|]. split; [|done].
  intros j r Hj. destruct (decide (length (sockets s) = j)) as [<-|Hne]; [by left|].
  rewrite list_lookup_insert_ne in Hj by done.
  apply lookup_app_Some in Hj as [Hj|[Hge Hj]]; [right; eauto|].
  apply lookup_lt_Some in Hj. cbn in Hj. lia.
Qed.


Lemma timer_fires_connect throws t (s : Hook W) :
  reconnectTimeoutRef s = Some t → timeouts s = [t] →
  step options callback (TimeoutFired t throws) s
  = Some (connect throws (set_timeouts [] s)).
Proof.
  intros Ht Htimeouts. unfold step. rewrite Htimeouts.
  rewrite bool_decide_eq_true_2 by (apply list_elem_of_singleton; done).
  by rewrite filter_cons_False, filter_nil by (intros Hne; by apply Hne).
Qed.

Lemma parked_disarm k (s : Hook W) :
  parked k true s → parked k false (set_timeouts [] s).
Proof. intros (? & ? & ? & ? & ? & _). done. Qed.

(** X6.  A connection with counter 0 is lost and fewer than
    [maxReconnectAttempts] retries fail; the next retry's socket opens.
    Then the status is [connected], the counter is back to 0, no retry
    is pending, one heartbeat is armed, and one socket was built per
    retry. *)
Theorem successful_retry_resets_counter
    (withError : bool) (withErrors : list bool) (i : nat) (s : Hook W) :
  live i s →
  reconnectAttemptsRef s = 0 →
  length withErrors < maxReconnectAttempts options →
  ∃ s1 s2 t s3 s4,
    drop options callback withError i s = Some s1
    ∧ failedRetries options callback withErrors s1 = Some s2
    ∧ reconnectAttemptsRef s2 = S (length withErrors)
    ∧ reconnectTimeoutRef s2 = Some t
    ∧ step options callback (TimeoutFired t false) s2 = Some s3
    ∧ step options callback (Opened (attempts s2)) s3 = Some s4
    ∧ connectionStatus s4 = ConnectionStatus.connected
    ∧ isConnected s4 = true
    ∧ reconnectAttemptsRef s4 = 0
    ∧ timeouts s4 = []
    ∧ (∃ p, pingIntervalRef s4 = Some p ∧ intervals s4 = [p])
    ∧ attempts s4 = attempts s + length withErrors + 1.
Proof.
  intros Hlive Hzero Hlen.
  destruct (drop_parks options callback withError i 0 s Hlive Hzero)
    as (s1 & Hdrop & Hsame & Hparked).
  rewrite bool_decide_eq_true_2 in Hparked by lia.
  destruct (failedRetries_parks options callback withErrors 1 s1 Hparked)
    as (s2 & Hretries & Hn & Harmed & _); [lia..|].
  specialize (Harmed ltac:(lia)).
  pose proof Harmed as (Hk & _ & _ & _ & _ & t & Ht & Htimeouts).
  pose proof (parked_disarm _ _ Harmed) as Hdisarmed.
  destruct (opened_after_parked _ _ _ Hdisarmed)
    as (s4 & Hopen & Hst & Hcon & Hctr & Hto & Hping & Hatt & _).
  exists s1, s2, t, (connect false (set_timeouts [] s2)), s4.
  split; [done|]. split; [done|]. split; [done|]. split; [done|].
  split; [by apply timer_fires_connect|]. split; [exact Hopen|].
  split; [done|]. split; [done|]. split; [done|]. split; [done|]. split; [done|].
  rewrite Hatt. change (attempts (set_timeouts [] s2)) with (attempts s2). lia.
Qed.




(** What the close handler leaves behind. *)
Lemma onclose_fields (s : Hook W) :
  connectionStatus (onclose options s) = ConnectionStatus.disconnected
  ∧ isConnected (onclose options s) = false
  ∧ pingIntervalRef (onclose options s) = None
  ∧ sockets (onclose options s) = sockets s
  ∧ websocketRef (onclose options s) = websocketRef s
  ∧ intervals (onclose options s)
    = match pingIntervalRef s with
      | Some p => filter (fun x => x ≠ p) (intervals s)
      | None => intervals s
      end
  ∧ (reconnectAttemptsRef s < maxReconnectAttempts options →
     reconnectTimeoutRef (onclose options s) = Some (nextTimerId s)
     ∧ timeouts (onclose options s) = timeouts s ++ [nextTimerId s]
     ∧ reconnectAttemptsRef (onclose options s) = S (reconnectAttemptsRef s))
  ∧ (¬ reconnectAttemptsRef s < maxReconnectAttempts options →
     timeouts (onclose options s) = timeouts s
     ∧ reconnectAttemptsRef (onclose options s) = reconnectAttemptsRef s).
Proof.
  unfold onclose. cbn.
  destruct (pingIntervalRef s) as [p|] eqn:Hp; cbn; rewrite ?Hp;
    case_bool_decide; cbn; rewrite ?Hp; repeat split; intros; try done; lia.
Qed.

(** X9.  The close event of a socket that a later [connect()] has
    replaced is handled like the loss of the current connection: the
    hook reports [disconnected], the heartbeat is cancelled and, below
    the bound, a retry is armed.  Yet the current socket stays open and
    [send] still succeeds; and when the retry timer runs out, [connect]
    finds the socket open and returns, so the status stays
    [disconnected]. *)
Theorem superseded_close_looks_like_a_loss
    (s : Hook W) (j i : nat) (text : string) :
  reachable options callback s →
  superseded j i s →
  ∃ s', step options callback (Closed j) s = Some s'
        ∧ connectionStatus s' = ConnectionStatus.disconnected
        ∧ isConnected s' = false
        ∧ pingIntervalRef s' = None
        ∧ intervals s' = []
        ∧ websocketRef s' = Some i
        ∧ sockets s' !! i = Some OPEN
        ∧ fst (send text s') = true
        ∧ (reconnectAttemptsRef s < maxReconnectAttempts options →
           ∃ t, reconnectTimeoutRef s' = Some t
                ∧ t ∈ timeouts s'
                ∧ ∀ throws, ∃ s'',
                    step options callback (TimeoutFired t throws) s' = Some s''
                    ∧ connectionStatus s'' = ConnectionStatus.disconnected
                    ∧ sockets s'' = sockets s').
Proof.
  intros Hr (Hne & Href & Hi & Hj & Hcon & Hst).
  destruct (reachable_coherent options callback s Hr) as (_ & Hint & _).
  exists (onclose options (set_sockets (<[j := CLOSED]> (sockets s)) s)).
  split; [unfold step; by rewrite Hj|].
  destruct (onclose_fields (set_sockets (<[j := CLOSED]> (sockets s)) s))
    as (Hst' & Hcon' & Hping' & Hsock' & Href' & Hint' & Harm & _).
  cbn in Hsock', Href', Hint', Harm.
  assert (Hi' : sockets (onclose options (set_sockets (<[j := CLOSED]> (sockets s)) s))
                !! i = Some OPEN).
  { rewrite Hsock'. by rewrite list_lookup_insert_ne. }
  split; [done|]. split; [done|]. split; [done|]. split.
  { rewrite Hint', Hint. destruct (pingIntervalRef s); cbn; [|done].
    case_decide; [congruence|done]. }
  split; [congruence|]. split; [done|]. split.
  { unfold send. rewrite Href', Href. by rewrite bool_decide_eq_true_2. }
  intros Hlt. destruct (Harm Hlt) as (Ht & Hto & _).
  exists (nextTimerId s). split; [done|].
  assert (Hin : nextTimerId s
                ∈ timeouts (onclose options (set_sockets (<[j := CLOSED]> (sockets s)) s))).
  { rewrite Hto. apply elem_of_app. right. by apply list_elem_of_singleton. }
  split; [done|]. intros throws. unfold step.
  rewrite bool_decide_eq_true_2 by done. eexists. split; [reflexivity|].
  unfold connect, isOpen. cbn [websocketRef sockets set_timeouts].
  rewrite Href', Href, bool_decide_eq_true_2 by done. done.
Qed.

End HookProperties.

(** ** The dashboard's connection flag *)

Section DashboardFlag.
Import WebSocketHook Situations.

Lemma onMessage_keeps_flag m (a : WebSocketProvider.App) :
  ProcessingStore.isWebSocketConnected
    (WebSocketProvider.store (WebSocketProvider.onMessage m a))
  = ProcessingStore.isWebSocketConnected (WebSocketProvider.store a).
Proof.
  unfold WebSocketProvider.onMessage, ProcessingStore.handleWebSocketMessage.
  repeat (match goal with |- context [if ?b then _ else _] => destruct b end; cbn);
    done.
Qed.

Lemma forEach_keeps_flag cbs m : ∀ s : Hook WebSocketProvider.App,
  connectionFlag (forEach Dashboard.callback cbs m s) = connectionFlag s.
Proof.
  induction cbs as [|c cbs IH]; intros s; [done|].
  cbn [forEach]. unfold Dashboard.callback at 2. rewrite IH.
  unfold connectionFlag; cbn. apply onMessage_keeps_flag.
Qed.

Lemma connect_keeps_world throws (s : Hook WebSocketProvider.App) :
  world (connect throws s) = world s ∧ isConnected (connect throws s) = isConnected s.
Proof.
  unfold connect. destruct (isOpen s); [done|].
  unfold cleanup, close. destruct s; cbn.
  destruct reconnectTimeoutRef0, pingIntervalRef0, websocketRef0, throws; cbn;
    repeat match goal with
           | |- context [sockets0 !! ?i] => destruct (sockets0 !! i) as [[]|]; cbn
           end; done.
Qed.

(** X10.  As long as nobody calls [disconnect()], the store's
    [isWebSocketConnected] flag agrees with the hook's [isConnected]
    after every event: it is set on open and cleared on close, and no
    message handled by the provider touches it. *)
Theorem connection_flag_follows_hook
    (es : list Event) (s : Hook WebSocketProvider.App) :
  Disconnect ∉ es →
  Dashboard.run es (mounted WebSocketProvider.initial) = Some s →
  ProcessingStore.isWebSocketConnected (WebSocketProvider.store (world s))
  = isConnected s.
Proof.
  assert (Hgen : ∀ es (s0 s : Hook WebSocketProvider.App),
            Disconnect ∉ es → connectionFlag s0 = isConnected s0 →
            Dashboard.run es s0 = Some s → connectionFlag s = isConnected s).
  { clear. induction es as [|e es IH]; intros s0 s Hes H0 Hrun;
      cbn in Hrun; [by simplify_eq|].
    apply not_elem_of_cons in Hes as [He Hes].
    destruct (step Dashboard.options Dashboard.callback e s0) as [s1|] eqn:Hstep; [|done].
    apply (IH s1 s Hes); [|done]. clear IH Hrun Hes.
    destruct e; cbn [step] in Hstep.
    - injection Hstep as <-. destruct (connect_keeps_world throws s0) as [Hw Hc].
      unfold connectionFlag. by rewrite Hw, Hc.
    - done.
    - injection Hstep as <-. unfold send. destruct (websocketRef s0); [|done].
      by case_bool_decide.
    - injection Hstep as <-. unfold subscribe. by case_bool_decide.
    - injection Hstep as <-. done.
    - destruct (sockets s0 !! i) as [[]|]; try discriminate. by injection Hstep as <-.
    - destruct (sockets s0 !! i) as [[]|]; try discriminate. injection Hstep as <-.
      unfold onmessage. destruct frame as [m|]; [|done].
      rewrite forEach_keeps_flag.
      destruct (forEach_refs Dashboard.callback (messageCallbacksRef s0) m
                  (set_lastMessage (Some m) s0)) as (_ & _ & _ & _ & -> & _).
      done.
    - destruct (sockets s0 !! i) as [[]|]; try discriminate; by injection Hstep as <-.
    - destruct (sockets s0 !! i) as [[]|]; try discriminate; injection Hstep as <-;
        unfold onclose; cbn; destruct (pingIntervalRef s0); cbn; by case_bool_decide.
    - case_bool_decide; [|discriminate]. injection Hstep as <-.
      match goal with |- context [connect throws ?x] =>
        destruct (connect_keeps_world throws x) as [Hw Hc] end.
      unfold connectionFlag. by rewrite Hw, Hc.
    - case_bool_decide; [|discriminate]. injection Hstep as <-.
      unfold ping. destruct (websocketRef s0); [|done]. by case_bool_decide. }
  intros Hes Hrun. by apply (Hgen es (mounted WebSocketProvider.initial) s).
Qed.

End DashboardFlag.

(** ** More on the store *)

Section StoreProperties.
Import JS ProcessingStore Episodes.

Lemma or_else_truthy (a b : Value) : truthy b = true → truthy (or_else a b) = true.
Proof. intros Hb. unfold or_else. by destruct (truthy a) eqn:Ha. Qed.


(** X11.  Two progress messages with payloads, applied one after the
    other, leave the store as one message whose payload is the second
    payload laid over the first. *)
Theorem updates_compose (m1 m2 : WebSocketMessage) (s : ProcessingStoreState) :
  type m1 = "status_update" ∨ type m1 = "processing_update" →
  type m2 = "status_update" ∨ type m2 = "processing_update" →
  truthy (data m1) = true →
  truthy (data m2) = true →
  fst (handleWebSocketMessage m2 (fst (handleWebSocketMessage m1 s)))
  = fst (handleWebSocketMessage
           (status_update (VObj (spread (data m2) ∪ spread (data m1)))) s).
Proof.
  intros H1 H2 Hd1 Hd2. rewrite !handle_update by (done || by left).
  rewrite Hd1, Hd2. cbn. unfold set_processingState; cbn.
  by rewrite (assoc_L (∪)).
Qed.

(** X12.  A successful [startProcessing] writes seven fields of the job
    state (status running, the start time, progress 0, no end time, no
    error message, step "Starting...", no logs) and keeps every other
    field: the results and the step total of the previous run, the
    statistics and the connection flag stay as they were. *)
Theorem start_resets_only_its_fields
    (now : string) (s : ProcessingStoreState) (k : string) :
  k ∉ Feed.startFields →
  let s' := startProcessing_fulfilled now (startProcessing_pending s) in
  processingState s' !! k = processingState s !! k
  ∧ processingState s' !! "status" = Some (VStr "running")
  ∧ processingState s' !! "start_time" = Some (VStr now)
  ∧ processingState s' !! "end_time" = Some VNull
  ∧ processingState s' !! "error_message" = Some VNull
  ∧ processingState s' !! "progress" = Some (VNum 0)
  ∧ processingState s' !! "current_step" = Some (VStr "Starting...")
  ∧ processingState s' !! "logs" = Some (VArr [])
  ∧ stats s' = stats s
  ∧ isWebSocketConnected s' = isWebSocketConnected s
  ∧ isLoading s' = false
  ∧ error s' = VNull.
Proof.
  intros Hk. cbn. unfold Feed.startFields in Hk.
  repeat (apply not_elem_of_cons in Hk as [? Hk]).
  split; [by rewrite !lookup_insert_ne by done|].
  repeat split; by rewrite ?lookup_insert_ne, ?lookup_insert_eq by done.
Qed.

(** X13.  [handleWebSocketMessage] changes the store only for the four
    job messages with a payload: a message without payload, a [pong] or
    a message of unknown type leaves it as it was.  It never touches the
    statistics, the loading flag or the connection flag, and it starts a
    statistics reload exactly for [processing_complete] with a
    payload. *)
Theorem only_job_messages_with_payload_change_the_store
    (m : WebSocketMessage) (s : ProcessingStoreState) :
  (truthy (data m) = false
   ∨ type m ∉ ["status_update"; "processing_update";
               "processing_complete"; "processing_error"] →
   fst (handleWebSocketMessage m s) = s)
  ∧ stats (fst (handleWebSocketMessage m s)) = stats s
  ∧ isLoading (fst (handleWebSocketMessage m s)) = isLoading s
  ∧ isWebSocketConnected (fst (handleWebSocketMessage m s)) = isWebSocketConnected s
  ∧ (LoadStatistics ∈ snd (handleWebSocketMessage m s)
     ↔ type m = "processing_complete" ∧ truthy (data m) = true).
Proof.
  unfold handleWebSocketMessage.
  destruct (String.eqb_spec (type m) "status_update") as [H1|H1];
    [|destruct (String.eqb_spec (type m) "processing_update") as [H2|H2];
      [|destruct (String.eqb_spec (type m) "processing_complete") as [H3|H3];
        [|destruct (String.eqb_spec (type m) "processing_error") as [H4|H4];
          [|destruct (String.eqb_spec (type m) "pong") as [H5|H5]]]]];
    cbn; destruct (truthy (data m)) eqn:Hd; cbn;
    (split; [intros [?|Hnot]; try done; exfalso; apply Hnot;
             rewrite ?H1, ?H2, ?H3, ?H4;
             repeat (first [apply list_elem_of_here|apply list_elem_of_further])|]);
    (split; [done|]); (split; [done|]); (split; [done|]);
    (split; [intros Hin|intros [? ?]; try congruence]);
    rewrite ?elem_of_cons, ?elem_of_nil in *;
    try (split; [congruence|done]); try tauto;
    try (destruct Hin as [?|?]; done);
    try (apply list_elem_of_here).
Qed.


(** X15.  A failed [loadProcessingStatus] or [stopProcessing] leaves the
    job state as it was, and so does a successful [stopProcessing]: the
    status changes only when the stream reports it.  The failed load
    resolves (the error is kept in the store only), the failed stop
    rejects with the error it caught, and the recorded error text is
    never empty. *)
Theorem load_and_stop_keep_job_state (e : Value) (s : ProcessingStoreState) :
  nullish e = false →
  let loaded := loadProcessingStatus_rejected e (loadProcessingStatus_pending s) in
  let stopped := stopProcessing_rejected e (stopProcessing_pending s) in
  processingState (fst loaded) = processingState s
  ∧ processingState (fst stopped) = processingState s
  ∧ processingState (stopProcessing_fulfilled (stopProcessing_pending s))
    = processingState s
  ∧ snd loaded = Fulfilled
  ∧ snd stopped = Rejected e
  ∧ truthy (error (fst loaded)) = true
  ∧ truthy (error (fst stopped)) = true
  ∧ isLoading (fst loaded) = false
  ∧ isLoading (fst stopped) = false.
Proof.
  intros He. cbn zeta.
  unfold loadProcessingStatus_rejected, stopProcessing_rejected, detail_or.
  rewrite He. cbn. repeat split; by apply or_else_truthy.
Qed.

(** X16.  The statistics answer touches nothing the other updates
    touch: it commutes with the snapshot answer (the dashboard requests
    both at once when it mounts) and with the handling of any streamed
    message. *)
Theorem statistics_commute
    (body status : Value) (m : WebSocketMessage) (s : ProcessingStoreState) :
  loadStatistics_fulfilled body (loadProcessingStatus_fulfilled status s)
  = loadProcessingStatus_fulfilled status (loadStatistics_fulfilled body s)
  ∧ fst (handleWebSocketMessage m (loadStatistics_fulfilled body s))
    = loadStatistics_fulfilled body (fst (handleWebSocketMessage m s)).
Proof.
  unfold loadStatistics_fulfilled, handleWebSocketMessage.
  destruct (nullish body); [done|].
  split; [done|].
  repeat (match goal with |- context [if ?b then _ else _] => destruct b end; cbn);
    done.
Qed.

End StoreProperties.

(** ** More on the notifier *)

Section NotifierProperties.
Import JS ProcessingStore WebSocketProvider Feed.

Lemma raised_show t n (a : App) :
  raised t (show n a) = raised t a + (if decide (title n = t) then 1 else 0).
Proof.
  unfold raised, show; cbn. rewrite filter_app, length_app. f_equal.
  rewrite filter_cons, filter_nil. by case_decide.
Qed.

Lemma onMessage_raised t m (a : App) :
  raised t (onMessage m a)
  = raised t a
    + (if String.eqb (type m) "processing_complete"
       then (if decide ("Processing Complete" = t) then 1 else 0)
       else if String.eqb (type m) "processing_error"
       then (if decide ("Processing Failed" = t) then 1 else 0)
       else 0).
Proof.
  unfold onMessage.
  destruct (String.eqb (type m) "processing_complete");
    [|destruct (String.eqb (type m) "processing_error")];
    rewrite ?raised_show; cbn; unfold raised; cbn; lia.
Qed.

(** X17.  Over any sequence of messages the provider raises one
    "Processing Complete" notification per [processing_complete]
    message and one "Processing Failed" notification per
    [processing_error] message, whatever their payloads and whatever
    state the store is in; progress messages, [pong] and unknown types
    raise none. *)
Theorem one_notification_per_terminal_message
    (ms : list WebSocketMessage) : ∀ a : App,
  raised "Processing Complete" (onMessages ms a)
  = raised "Processing Complete" a + ofType "processing_complete" ms
  ∧ raised "Processing Failed" (onMessages ms a)
    = raised "Processing Failed" a + ofType "processing_error" ms
  ∧ length (shown (onMessages ms a))
    = length (shown a) + ofType "processing_complete" ms
      + ofType "processing_error" ms.
Proof.
  unfold onMessages, ofType.
  induction ms as [|m ms IH]; intros a; cbn [foldl].
  - rewrite !filter_nil. cbn. lia.
  - destruct (IH (onMessage m a)) as (-> & -> & ->).
    rewrite !onMessage_raised, !filter_cons.
    assert (length (shown (onMessage m a))
            = length (shown a)
              + (if String.eqb (type m) "processing_complete" then 1
                 else if String.eqb (type m) "processing_error" then 1 else 0)) as ->.
    { unfold onMessage.
      destruct (String.eqb (type m) "processing_complete");
        [|destruct (String.eqb (type m) "processing_error")];
        cbn; rewrite ?length_app; cbn; lia. }
    destruct (String.eqb_spec (type m) "processing_complete") as [Hc|Hc];
      [|destruct (String.eqb_spec (type m) "processing_error") as [He|He]];
      repeat case_decide; try congruence; cbn; lia.
Qed.

(** X18.  A [processing_complete] message without payload still raises
    the "Processing Complete" notification, although the store is left
    as it was (a running job stays running) and no statistics reload is
    started. *)
Theorem complete_without_payload_only_notifies (m : WebSocketMessage) (a : App) :
  type m = "processing_complete" →
  truthy (data m) = false →
  store (onMessage m a) = store a
  ∧ started (onMessage m a) = started a
  ∧ shown (onMessage m a) = shown a ++ [processingComplete].
Proof.
  intros Hty Hd. unfold onMessage. rewrite handle_complete, Hd, Hty by done.
  cbn. by rewrite app_nil_r.
Qed.

End NotifierProperties.

(** ** Error texts *)

Section ApiProperties.
Import JS ProcessingStore ApiUtils.


End ApiProperties.

(** ** The duration shown on the processing card *)

Section DurationProperties.
Import JS ProcessingSection.
Variable getTime : Value -> option Z.

(** X20.  [formatDuration] shows nothing before a run has a start time.
    With valid times it shows "0m 0s" when the end lies before the
    start, and otherwise "<m>m <s>s" with 0 <= s < 60 and 60 m + s the
    whole seconds between start and end; for a run without end time the
    card's clock is the end. *)
Theorem formatDuration_splits_whole_seconds
    (processingState : gmap string Value) (currentTime a b : Z) :
  let start_time := default VUndef (processingState !! "start_time") in
  let end_time := default VUndef (processingState !! "end_time") in
  (truthy start_time = false →
   formatDuration getTime processingState currentTime = None)
  ∧ (truthy start_time = true →
     getTime start_time = Some a →
     (if truthy end_time then getTime end_time else Some currentTime) = Some b →
     ((b < a)%Z → formatDuration getTime processingState currentTime = Some "0m 0s")
     ∧ ((a ≤ b)%Z →
        ∃ m sec : Z,
          formatDuration getTime processingState currentTime
          = Some (pretty m +:+ "m " +:+ pretty sec +:+ "s")
          ∧ (0 ≤ m)%Z ∧ (0 ≤ sec < 60)%Z
          ∧ (60 * m + sec = (b - a) / 1000)%Z)).
Proof.
  cbn zeta. unfold formatDuration. split.
  - by intros ->.
  - intros -> -> ->. cbn. split.
    + intros Hlt. by rewrite (proj2 (Z.ltb_lt _ _)) by lia.
    + intros Hle. rewrite (proj2 (Z.ltb_ge _ _)) by lia.
      eexists _, _. split; [reflexivity|].
      assert (0 ≤ b - a)%Z as Hd by lia. revert Hd. generalize (b - a)%Z. intros d Hd.
      repeat split; Z.div_mod_to_equations; lia.
Qed.

End DurationProperties.

(** ** The properties at the dashboard *)

Section DashboardInstances.
Import JS WebSocketHook Retries Reachable Situations Episodes.

Lemma dashboard_connected_reachable :
  reachable Dashboard.options Dashboard.callback Dashboard.connected.
Proof.
  exists WebSocketProvider.initial, [Connect false; Subscribe 0; Opened 0].
  vm_compute. reflexivity.
Qed.



Lemma dashboard_replaced_state :
  replaced =
    {| isConnected := true; connectionStatus := ConnectionStatus.connected;
       lastMessage := None; error := None; websocketRef := Some 1;
       reconnectTimeoutRef := None; reconnectAttemptsRef := 0;
       pingIntervalRef := Some 1; messageCallbacksRef := [0];
       sockets := [CLOSING; OPEN];
       timeouts := []; intervals := [1]; nextTimerId := 2; sent := []; console := [];
       delivered := [];
       world := WebSocketProvider.handleConnect WebSocketProvider.initial |}.
Proof. vm_compute. reflexivity. Qed.

Lemma dashboard_replaced_reachable :
  reachable Dashboard.options Dashboard.callback replaced.
Proof.
  exists WebSocketProvider.initial,
    [Connect false; Connect false; Subscribe 0; Opened 1].
  vm_compute. reflexivity.
Qed.

Lemma dashboard_replaced_superseded : superseded 0 1 replaced.
Proof. rewrite dashboard_replaced_state. by unfold superseded. Qed.

Lemma at_most_one_live_socket_witness :
  reachable Dashboard.options Dashboard.callback replaced
  ∧ sockets replaced !! 1 = Some OPEN
  ∧ isLive OPEN = true
  ∧ websocketRef replaced = Some 1.
Proof.
  assert (H1 : sockets replaced !! 1 = Some OPEN)
    by (by rewrite dashboard_replaced_state).
  split; [exact dashboard_replaced_reachable|]. split; [exact H1|]. split; [reflexivity|].
  exact (proj2 (at_most_one_live_socket Dashboard.options Dashboard.callback
                  replaced 1 1 OPEN OPEN dashboard_replaced_reachable
                  H1 eq_refl H1 eq_refl)).
Defined.



Lemma registry_is_a_set_witness :
  reachable Dashboard.options Dashboard.callback Dashboard.connected
  ∧ NoDup (messageCallbacksRef (subscribe 0 Dashboard.connected)).
Proof.
  split; [exact dashboard_connected_reachable|].
  exact (proj1 (proj2 (registry_is_a_set Dashboard.options Dashboard.callback
                         Dashboard.connected 0 dashboard_connected_reachable))).
Defined.

Lemma unsubscribe_undoes_subscribe_witness :
  NoDup (messageCallbacksRef Dashboard.connected)
  ∧ received 0 (onmessage Dashboard.callback (Some fetching)
                  (unsubscribe 0 Dashboard.connected))
    = received 0 Dashboard.connected.
Proof.
  assert (Hnodup : NoDup (messageCallbacksRef Dashboard.connected)).
  { rewrite dashboard_connected_state. apply NoDup_singleton. }
  split; [exact Hnodup|].
  exact (proj1 (proj2 (unsubscribe_undoes_subscribe Dashboard.callback
                         Dashboard.connected 0 fetching Hnodup))).
Defined.

Lemma successful_retry_resets_counter_witness :
  live 0 Dashboard.connected
  ∧ reconnectAttemptsRef Dashboard.connected = 0
  ∧ length [true; false; true] < maxReconnectAttempts Dashboard.options
  ∧ ∃ s1 s2, drop Dashboard.options Dashboard.callback false 0 Dashboard.connected = Some s1
             ∧ failedRetries Dashboard.options Dashboard.callback [true; false; true] s1
               = Some s2
             ∧ reconnectAttemptsRef s2 = 4.
Proof.
  assert (Hzero : reconnectAttemptsRef Dashboard.connected = 0)
    by (by rewrite dashboard_connected_state).
  assert (Hlen : length [true; false; true] < maxReconnectAttempts Dashboard.options)
    by (cbn; lia).
  split; [exact dashboard_connected_live|]. split; [exact Hzero|]. split; [exact Hlen|].
  destruct (successful_retry_resets_counter Dashboard.options Dashboard.callback
              false [true; false; true] 0 Dashboard.connected
              dashboard_connected_live Hzero Hlen)
    as (s1 & s2 & _ & _ & _ & Hdrop & Hretries & Hk & _).
  exists s1, s2. split; [exact Hdrop|]. split; [exact Hretries|exact Hk].
Defined.



Lemma superseded_close_looks_like_a_loss_witness :
  reachable Dashboard.options Dashboard.callback replaced
  ∧ superseded 0 1 replaced
  ∧ ∃ s', Dashboard.step (Closed 0) replaced = Some s'
          ∧ connectionStatus s' = ConnectionStatus.disconnected
          ∧ sockets s' !! 1 = Some OPEN.
Proof.
  split; [exact dashboard_replaced_reachable|].
  split; [exact dashboard_replaced_superseded|].
  destruct (superseded_close_looks_like_a_loss Dashboard.options Dashboard.callback
              replaced 0 1 "status?" dashboard_replaced_reachable
              dashboard_replaced_superseded)
    as (s' & Hstep & Hst & _ & _ & _ & _ & Hopen & _).
  exists s'. split; [exact Hstep|]. split; [exact Hst|exact Hopen].
Defined.

Lemma connection_flag_follows_hook_witness :
  (Disconnect ∉ [Connect false; Subscribe 0; Opened 0; Closed 0])
  ∧ Dashboard.run [Connect false; Subscribe 0; Opened 0; Closed 0]
      (mounted WebSocketProvider.initial) = Some lost
  ∧ connectionFlag lost = isConnected lost.
Proof.
  assert (Hes : Disconnect ∉ [Connect false; Subscribe 0; Opened 0; Closed 0]).
  { rewrite !not_elem_of_cons. repeat split; try discriminate. apply not_elem_of_nil. }
  assert (Hrun : Dashboard.run [Connect false; Subscribe 0; Opened 0; Closed 0]
                   (mounted WebSocketProvider.initial) = Some lost)
    by (vm_compute; reflexivity).
  split; [exact Hes|]. split; [exact Hrun|].
  exact (connection_flag_follows_hook _ _ Hes Hrun).
Defined.

Lemma updates_compose_witness :
  (ProcessingStore.type fetching = "status_update"
   ∨ ProcessingStore.type fetching = "processing_update")
  ∧ (ProcessingStore.type late = "status_update"
     ∨ ProcessingStore.type late = "processing_update")
  ∧ truthy (ProcessingStore.data fetching) = true
  ∧ truthy (ProcessingStore.data late) = true
  ∧ ProcessingStore.progress_of
      (fst (ProcessingStore.handleWebSocketMessage late
              (fst (ProcessingStore.handleWebSocketMessage fetching
                      ProcessingStore.initial))))
    = ProcessingStore.progress_of
        (fst (ProcessingStore.handleWebSocketMessage
                (status_update (VObj (spread (ProcessingStore.data late)
                                        ∪ spread (ProcessingStore.data fetching))))
                ProcessingStore.initial)).
Proof.
  split; [by left|]. split; [by left|]. split; [reflexivity|]. split; [reflexivity|].
  exact (f_equal ProcessingStore.progress_of
           (updates_compose fetching late ProcessingStore.initial
              (or_introl eq_refl) (or_introl eq_refl) eq_refl eq_refl)).
Defined.

Lemma start_resets_only_its_fields_witness :
  ("results" ∉ Feed.startFields)
  ∧ ProcessingStore.processingState
      (ProcessingStore.startProcessing_fulfilled "2025-01-01T00:00:00.000Z"
         (ProcessingStore.startProcessing_pending
            (handleAll [fetching; finished] ProcessingStore.initial)))
      !! "results"
    = ProcessingStore.processingState
        (handleAll [fetching; finished] ProcessingStore.initial) !! "results".
Proof.
  assert (Hk : "results" ∉ Feed.startFields).
  { unfold Feed.startFields. rewrite !not_elem_of_cons.
    repeat split; try discriminate. apply not_elem_of_nil. }
  split; [exact Hk|].
  exact (proj1 (start_resets_only_its_fields "2025-01-01T00:00:00.000Z"
                  (handleAll [fetching; finished] ProcessingStore.initial)
                  "results" Hk)).
Defined.

Lemma only_job_messages_with_payload_change_the_store_witness :
  truthy (ProcessingStore.data (processing_complete VNull)) = false
  ∧ fst (ProcessingStore.handleWebSocketMessage (processing_complete VNull)
           (handleAll [fetching] ProcessingStore.initial))
    = handleAll [fetching] ProcessingStore.initial.
Proof.
  split; [reflexivity|].
  exact (proj1 (only_job_messages_with_payload_change_the_store
                  (processing_complete VNull)
                  (handleAll [fetching] ProcessingStore.initial))
           (or_introl eq_refl)).
Defined.


Lemma load_and_stop_keep_job_state_witness :
  nullish (object [("message", VStr "Network Error")]) = false
  ∧ ProcessingStore.processingState
      (fst (ProcessingStore.stopProcessing_rejected
              (object [("message", VStr "Network Error")])
              (ProcessingStore.stopProcessing_pending
                 (handleAll [fetching] ProcessingStore.initial))))
    = ProcessingStore.processingState (handleAll [fetching] ProcessingStore.initial).
Proof.
  split; [reflexivity|].
  exact (proj1 (proj2 (load_and_stop_keep_job_state
                         (object [("message", VStr "Network Error")])
                         (handleAll [fetching] ProcessingStore.initial) eq_refl))).
Defined.

Lemma complete_without_payload_only_notifies_witness :
  ProcessingStore.type (processing_complete VUndef) = "processing_complete"
  ∧ truthy (ProcessingStore.data (processing_complete VUndef)) = false
  ∧ WebSocketProvider.store
      (WebSocketProvider.onMessage (processing_complete VUndef) WebSocketProvider.initial)
    = WebSocketProvider.store WebSocketProvider.initial.
Proof.
  split; [reflexivity|]. split; [reflexivity|].
  exact (proj1 (complete_without_payload_only_notifies (processing_complete VUndef)
                  WebSocketProvider.initial eq_refl eq_refl)).
Defined.


Lemma formatDuration_splits_whole_seconds_witness :
  truthy (default VUndef (startedJob !! "start_time")) = true
  ∧ millis (default VUndef (startedJob !! "start_time")) = Some 1000%Z
  ∧ (1000 ≤ 126500)%Z
  ∧ ∃ m sec : Z,
      ProcessingSection.formatDuration millis startedJob 126500
      = Some (pretty m +:+ "m " +:+ pretty sec +:+ "s")
      ∧ (60 * m + sec = (126500 - 1000) / 1000)%Z.
Proof.
  assert (Hstart : truthy (default VUndef (startedJob !! "start_time")) = true)
    by (vm_compute; reflexivity).
  assert (Ha : millis (default VUndef (startedJob !! "start_time")) = Some 1000%Z)
    by (vm_compute; reflexivity).
  assert (Hb : (if truthy (default VUndef (startedJob !! "end_time"))
                then millis (default VUndef (startedJob !! "end_time"))
                else Some 126500%Z) = Some 126500%Z)
    by (vm_compute; reflexivity).
  split; [exact Hstart|]. split; [exact Ha|]. split; [lia|].
  destruct (proj2 (proj2 (formatDuration_splits_whole_seconds millis startedJob
                            126500 1000 126500) Hstart Ha Hb) ltac:(lia))
    as (m & sec & Hfmt & _ & _ & Hsum).
  exists m, sec. split; [exact Hfmt|exact Hsum].
Defined.

End DashboardInstances.
